(** * infakt_client: a Rocq model of [client.py] and [invoice.py]

    The development embeds the two Python modules of the repository:

    - [invoice.py]: the [Invoice] record built from a decoded JSON response;
    - [client.py]: the pydantic [Config] with its credentials validator and
      the [Client] with its date derivation, its dotted-path lookup of
      defaults and its four remote operations.

    Python values are modelled by the inductive [pyval]; exceptions by the
    sum type [result]; [datetime.date] by a record of three integers with the
    proleptic Gregorian ordinal arithmetic of CPython's [datetime] module;
    the remote service and the configuration file by an environment record,
    with the requests that were issued kept in a log. *)

From Stdlib Require Import ZArith Lia String Ascii List Bool.
From Stdlib Require Import Floats.PrimFloat Floats.SpecFloat Floats.FloatOps.
From stdpp Require Import gmap strings.

Set Warnings "-inexact-float,-register-all".

Open Scope Z_scope.

(** ** Exceptions and the error monad *)

(** The exceptions that the modelled code, or the library calls it makes,
    can raise. *)
Inductive exn :=
| ValueError
| OverflowError
| TypeError
| AttributeError
| KeyError (key : string)
| IllegalMonthError (month : Z)
| ZeroDivisionError
| AssertionError
| ValidationError
| TomlError
| ConnectionError
| JSONDecodeError
| HTTPError (status : Z).

Inductive result (A : Type) :=
| OK (a : A)
| Raise (e : exn).
Arguments OK {A} a.
Arguments Raise {A} e.

#[global] Instance result_ret : MRet result := fun A a => OK a.

#[global] Instance result_bind : MBind result := fun A B k r =>
  match r with
  | OK a => k a
  | Raise e => Raise e
  end.

Definition returns {A} (r : result A) : Prop := exists a, r = OK a.
Definition raises {A} (r : result A) : Prop := exists e, r = Raise e.

(** ** Python strings: [str(int)], [str.zfill], [str.split] *)

Definition digit_char (d : Z) : ascii := ascii_of_nat (48 + Z.to_nat d).

(** Decimal digits of a non-negative integer, most significant first. The
    fuel bounds the number of digits. *)
Fixpoint digits_go (fuel : nat) (n : Z) (acc : string) : string :=
  match fuel with
  | O => acc
  | S fuel' =>
      let acc' := String (digit_char (n mod 10)) acc in
      if n <? 10 then acc' else digits_go fuel' (n / 10) acc'
  end.

Definition str_nat (n : Z) : string :=
  digits_go (S (Z.to_nat (Z.log2 n))) n "".

(** [str(n)] for a Python [int]. *)
Definition str_int (n : Z) : string :=
  if n <? 0 then String "-" (str_nat (- n)) else str_nat n.

Fixpoint zeros (n : nat) : string :=
  match n with
  | O => ""
  | S n' => String "0" (zeros n')
  end.

(** [s.zfill(width)]: zeros are inserted after a leading sign. *)
Definition zfill (width : nat) (s : string) : string :=
  let pad := zeros (width - String.length s) in
  match s with
  | String c rest =>
      if (Ascii.eqb c "+" || Ascii.eqb c "-")%bool
      then String c (pad +:+ rest)
      else pad +:+ s
  | EmptyString => pad
  end.

(** [s.split(sep)] for a one-character separator: the segments between the
    occurrences of [sep]; never the empty list. *)
Fixpoint split_go (sep : ascii) (s : string) (cur : string) : list string :=
  match s with
  | EmptyString => [cur]
  | String c rest =>
      if Ascii.eqb c sep
      then cur :: split_go sep rest ""
      else split_go sep rest (cur +:+ String c "")
  end.

Definition str_split (sep : ascii) (s : string) : list string := split_go sep s "".

(** [sep.join(parts)], used to state what [str_split] computes. *)
Fixpoint str_join (sep : ascii) (parts : list string) : string :=
  match parts with
  | [] => ""
  | [p] => p
  | p :: ps => p +:+ String sep (str_join sep ps)
  end.

Fixpoint contains_char (c : ascii) (s : string) : bool :=
  match s with
  | EmptyString => false
  | String c' rest => (Ascii.eqb c' c || contains_char c rest)%bool
  end.

(** ** The calendar: [calendar] and [datetime] *)

Definition isleap (year : Z) : bool :=
  ((year mod 4 =? 0) && (negb (year mod 100 =? 0) || (year mod 400 =? 0)))%bool.

(** [calendar.mdays] and [datetime._DAYS_IN_MONTH] at index 1..12. *)
Definition mdays (month : Z) : Z :=
  match month with
  | 1 => 31 | 2 => 28 | 3 => 31 | 4 => 30 | 5 => 31 | 6 => 30
  | 7 => 31 | 8 => 31 | 9 => 30 | 10 => 31 | 11 => 30 | 12 => 31
  | _ => 0
  end.

Definition Z_of_bool (b : bool) : Z := if b then 1 else 0.

(** [calendar.monthrange(year, month)[1]]: the number of days of the month.
    The first component (the weekday of the first day) is computed by the
    library and dropped by the caller; it is not modelled (since Python 3.8
    it is computed for every year, also outside 1..9999). *)
Definition monthrange_ndays (year month : Z) : result Z :=
  if ((1 <=? month) && (month <=? 12))%bool
  then OK (mdays month + Z_of_bool ((month =? 2) && isleap year))
  else Raise (IllegalMonthError month).

Record date := mk_date { year : Z; month : Z; day : Z }.

Definition MINYEAR : Z := 1.
Definition MAXYEAR : Z := 9999.

Definition _days_in_month (y m : Z) : Z :=
  if ((m =? 2) && isleap y)%bool then 29 else mdays m.

(** [datetime._DAYS_BEFORE_MONTH] at index 1..12. *)
Definition _DAYS_BEFORE_MONTH (m : Z) : Z :=
  match m with
  | 1 => 0 | 2 => 31 | 3 => 59 | 4 => 90 | 5 => 120 | 6 => 151
  | 7 => 181 | 8 => 212 | 9 => 243 | 10 => 273 | 11 => 304 | 12 => 334
  | _ => 0
  end.

Definition _days_before_year (y : Z) : Z :=
  let y' := y - 1 in
  y' * 365 + y' / 4 - y' / 100 + y' / 400.

Definition _days_before_month (y m : Z) : Z :=
  _DAYS_BEFORE_MONTH m + Z_of_bool ((2 <? m) && isleap y).

Definition _ymd2ord (y m d : Z) : Z :=
  _days_before_year y + _days_before_month y m + d.

Definition _DI400Y : Z := 146097.
Definition _DI100Y : Z := 36524.
Definition _DI4Y : Z := 1461.
Definition _MAXORDINAL : Z := 3652059.

(** [datetime._ord2ymd]: the date of a proleptic Gregorian ordinal. *)
Definition _ord2ymd (n : Z) : date :=
  let n := n - 1 in
  let n400 := n / _DI400Y in
  let n := n mod _DI400Y in
  let year := n400 * 400 + 1 in
  let n100 := n / _DI100Y in
  let n := n mod _DI100Y in
  let n4 := n / _DI4Y in
  let n := n mod _DI4Y in
  let n1 := n / 365 in
  let n := n mod 365 in
  let year := year + n100 * 100 + n4 * 4 + n1 in
  if ((n1 =? 4) || (n100 =? 4))%bool then mk_date (year - 1) 12 31
  else
    let leapyear := ((n1 =? 3) && (negb (n4 =? 24) || (n100 =? 3)))%bool in
    let month := Z.shiftr (n + 50) 5 in
    let preceding := _DAYS_BEFORE_MONTH month + Z_of_bool ((2 <? month) && leapyear) in
    if n <? preceding
    then
      let month := month - 1 in
      let preceding := preceding - (mdays month + Z_of_bool ((month =? 2) && leapyear)) in
      mk_date year month (n - preceding + 1)
    else mk_date year month (n - preceding + 1).

(** The check of the [datetime.date] constructor. *)
Definition valid_dateb (d : date) : bool :=
  ((MINYEAR <=? year d) && (year d <=? MAXYEAR) &&
   (1 <=? month d) && (month d <=? 12) &&
   (1 <=? day d) && (day d <=? _days_in_month (year d) (month d)))%bool.

Definition valid_date (d : date) : Prop := valid_dateb d = true.

(** [datetime.date(year, month, day)]. *)
Definition date_new (y m d : Z) : result date :=
  if valid_dateb (mk_date y m d) then OK (mk_date y m d) else Raise ValueError.

(** [d.replace(day=...)]. *)
Definition date_replace_day (d : date) (new_day : Z) : result date :=
  date_new (year d) (month d) new_day.

Definition toordinal (d : date) : Z := _ymd2ord (year d) (month d) (day d).

(** [datetime.timedelta(days=n)], as the number of days it holds. *)
Definition timedelta_days (n : Z) : result Z :=
  if ((-999999999 <=? n) && (n <=? 999999999))%bool then OK n else Raise OverflowError.

(** [date + timedelta]: [date.__add__]. *)
Definition date_add (d : date) (delta : Z) : result date :=
  let o := toordinal d + delta in
  if ((0 <? o) && (o <=? _MAXORDINAL))%bool then OK (_ord2ymd o) else Raise OverflowError.

(** [date - timedelta]: [date.__sub__] adds the negated difference. *)
Definition date_sub (d : date) (delta : Z) : result date := date_add d (- delta).

(** Python's [date.isoformat()], the canonical YYYY-MM-DD rendering:
    ["%04d-%02d-%02d"]. *)
Definition isoformat (d : date) : string :=
  zfill 4 (str_int (year d)) +:+ "-" +:+ zfill 2 (str_int (month d)) +:+ "-"
    +:+ zfill 2 (str_int (day d)).

(** *** [datetime.datetime.strptime(s, "%Y-%m-%d").date()]

    The format is turned by [_strptime] into the regular expression
    [(?P<Y>\d\d\d\d)-(?P<m>1[0-2]|0[1-9]|[1-9])-(?P<d>3[0-1]|[1-2]\d|0[1-9]|[1-9]| [1-9])]
    which is matched at the start of the string; the alternatives are tried
    in order, with backtracking. A matcher returns the list of its possible
    matches, first choice first, each with the text that is left. Characters
    are 8-bit here, where [\d] is [0-9]. *)

Definition char_between (lo hi c : ascii) : bool :=
  ((nat_of_ascii lo <=? nat_of_ascii c)%nat && (nat_of_ascii c <=? nat_of_ascii hi)%nat)%bool.

Definition is_digit (c : ascii) : bool := char_between "0" "9" c.

Definition digit_val (c : ascii) : Z := Z.of_nat (nat_of_ascii c) - 48.

Definition match_lit (c : ascii) (s : string) : list string :=
  match s with
  | String c' rest => if Ascii.eqb c' c then [rest] else []
  | EmptyString => []
  end.

(** [\d\d\d\d] *)
Definition match_Y (s : string) : list (Z * string) :=
  match s with
  | String a (String b (String c (String d rest))) =>
      if (is_digit a && is_digit b && is_digit c && is_digit d)%bool
      then [(1000 * digit_val a + 100 * digit_val b + 10 * digit_val c + digit_val d, rest)]
      else []
  | _ => []
  end.

(** One alternative made of two character classes. *)
Definition match_2 (lo1 hi1 lo2 hi2 : ascii) (s : string) : list (Z * string) :=
  match s with
  | String a (String b rest) =>
      if (char_between lo1 hi1 a && char_between lo2 hi2 b)%bool
      then [(10 * digit_val a + digit_val b, rest)]
      else []
  | _ => []
  end.

(** One alternative made of one character class. *)
Definition match_1 (lo hi : ascii) (s : string) : list (Z * string) :=
  match s with
  | String a rest => if char_between lo hi a then [(digit_val a, rest)] else []
  | EmptyString => []
  end.

(** [1[0-2]|0[1-9]|[1-9]] *)
Definition match_m (s : string) : list (Z * string) :=
  match_2 "1" "1" "0" "2" s ++ match_2 "0" "0" "1" "9" s ++ match_1 "1" "9" s.

(** [3[0-1]|[1-2]\d|0[1-9]|[1-9]| [1-9]] *)
Definition match_d (s : string) : list (Z * string) :=
  match_2 "3" "3" "0" "1" s ++ match_2 "1" "2" "0" "9" s ++ match_2 "0" "0" "1" "9" s
    ++ match_1 "1" "9" s
    ++ (rest ← match_lit " " s; match_1 "1" "9" rest).

(** The part of the expression after the year: [-(?P<m>...)-(?P<d>...)]. *)
Definition match_md (s1 : string) : list (Z * Z * string) :=
  s2 ← match_lit "-" s1;
  '(m, s3) ← match_m s2;
  s4 ← match_lit "-" s3;
  '(d, s5) ← match_d s4;
  [(m, d, s5)].

Definition match_ymd (s : string) : list (Z * Z * Z * string) :=
  '(y, s1) ← match_Y s;
  '(m, d, s5) ← match_md s1;
  [(y, m, d, s5)].

(** The first match decides: text left after it is "unconverted data", and
    the fields must make a date; every failure is a [ValueError]. *)
Definition strptime_ymd (s : string) : result date :=
  match match_ymd s with
  | [] => Raise ValueError
  | (y, m, d, rest) :: _ =>
      match rest with
      | EmptyString => date_new y m d
      | String _ _ => Raise ValueError
      end
  end.

(** ** [Client]: date derivation *)

(** [Client._get_default_invoice_date], with [datetime.date.today()] as the
    argument. *)
Definition _get_default_invoice_date (today : date) : result string :=
  first ← date_replace_day today 1;
  '(year, month) ←
    (if month today =? 1 then
       if day today <? 15 then OK (year today - 1, 12)
       else OK (year today, month today)
     else
       if day today <? 15 then
         one_day ← timedelta_days 1;
         last_month ← date_sub first one_day;
         OK (year today, month last_month)
       else OK (year today, month today));
  day ← monthrange_ndays year month;
  let month := zfill 2 (str_int month) in
  let day := zfill 2 (str_int day) in
  OK (str_int year +:+ "-" +:+ month +:+ "-" +:+ day).

(** [Client._get_payment_date]. *)
Definition _get_payment_date (invoice_date : string) (payment_days : Z) : result string :=
  date_obj ← strptime_ymd invoice_date;
  delta ← timedelta_days payment_days;
  payment_date_obj ← date_add date_obj delta;
  let year := year payment_date_obj in
  let month := month payment_date_obj in
  let day := day payment_date_obj in
  let month := zfill 2 (str_int month) in
  let day := zfill 2 (str_int day) in
  OK (str_int year +:+ "-" +:+ month +:+ "-" +:+ day).

(** ** Python values *)

(** The values that [toml.load] and [response.json()] produce and that the
    client passes around. A [dict] with [str] keys is a finite map. *)
Inductive pyval :=
| VNone
| VBool (b : bool)
| VInt (z : Z)
| VFloat (f : float)
| VStr (s : string)
| VList (l : list pyval)
| VDict (m : gmap string pyval).

(** [float(z)] for a Python [int]: the nearest double, ties to even. *)
Definition float_of_Z (z : Z) : result float :=
  match binary_normalize prec emax z 0 false with
  | S754_infinity _ => Raise OverflowError
  | f => OK (SF2Prim f)
  end.

Definition SF_of_Z (z : Z) : spec_float :=
  match z with
  | Z0 => S754_zero false
  | Zpos p => S754_finite false p 0
  | Zneg p => S754_finite true p 0
  end.

(** [a / b] for two Python [int]s: the correctly rounded quotient. *)
Definition int_true_divide (a b : Z) : result float :=
  if b =? 0 then Raise ZeroDivisionError
  else
    match SFdiv prec emax (SF_of_Z a) (SF_of_Z b) with
    | S754_infinity _ => Raise OverflowError
    | q => OK (SF2Prim q)
    end.

Fixpoint str_repeat (s : string) (n : nat) : string :=
  match n with
  | O => ""
  | S n' => s +:+ str_repeat s n'
  end.

Fixpoint list_repeat {A} (l : list A) (n : nat) : list A :=
  match n with
  | O => []
  | S n' => l ++ list_repeat l n'
  end.

(** [a * k] where [k] is an [int]. *)
Definition py_mul_int (a : pyval) (k : Z) : result pyval :=
  match a with
  | VInt z => OK (VInt (z * k))
  | VBool b => OK (VInt (Z_of_bool b * k))
  | VFloat f => k' ← float_of_Z k; OK (VFloat (f * k'))
  | VStr s => OK (VStr (str_repeat s (Z.to_nat k)))
  | VList l => OK (VList (list_repeat l (Z.to_nat k)))
  | VNone | VDict _ => Raise TypeError
  end.

(** [a / k] where [k] is an [int]: true division. *)
Definition py_truediv_int (a : pyval) (k : Z) : result pyval :=
  match a with
  | VInt z => q ← int_true_divide z k; OK (VFloat q)
  | VBool b => q ← int_true_divide (Z_of_bool b) k; OK (VFloat q)
  | VFloat f =>
      if k =? 0 then Raise ZeroDivisionError
      else k' ← float_of_Z k; OK (VFloat (f / k'))
  | VNone | VStr _ | VList _ | VDict _ => Raise TypeError
  end.

(** [obj[key]] for a [str] key. *)
Definition py_getitem (obj : pyval) (key : string) : result pyval :=
  match obj with
  | VDict m =>
      match m !! key with
      | Some v => OK v
      | None => Raise (KeyError key)
      end
  | _ => Raise TypeError
  end.

(** [obj.get(key, default)]. *)
Definition py_get (obj : pyval) (key : string) (default : pyval) : result pyval :=
  match obj with
  | VDict m =>
      match m !! key with
      | Some v => OK v
      | None => OK default
      end
  | _ => Raise AttributeError
  end.

(** [len(obj)]. *)
Definition py_len (obj : pyval) : result Z :=
  match obj with
  | VStr s => OK (Z.of_nat (String.length s))
  | VList l => OK (Z.of_nat (length l))
  | VDict m => OK (Z.of_nat (size m))
  | VNone | VBool _ | VInt _ | VFloat _ => Raise TypeError
  end.

(** ** [invoice.py] *)

Module Invoice.

Record t := mk {
  id : pyval;
  number : pyval;
  invoice_date : pyval;
  sale_date : pyval;
  net_price : pyval;
  tax_price : pyval;
  gross_price : pyval;
  client_id : pyval
}.

(** [Invoice.__init__]: the attributes are assigned in this order, so the
    first failing line decides the exception. *)
Definition __init__ (json : pyval) : result t :=
  id ← py_getitem json "id";
  number ← py_getitem json "number";
  invoice_date ← py_getitem json "invoice_date";
  sale_date ← py_getitem json "sale_date";
  net_price ← (v ← py_getitem json "net_price"; py_truediv_int v 100);
  tax_price ← (v ← py_getitem json "tax_price"; py_truediv_int v 100);
  gross_price ← (v ← py_getitem json "gross_price"; py_truediv_int v 100);
  client_id ← py_getitem json "client_id";
  OK (mk id number invoice_date sale_date net_price tax_price gross_price client_id).

(** The keys that [__init__] reads, in the order it reads them. *)
Definition keys : list string :=
  ["id"; "number"; "invoice_date"; "sale_date"; "net_price"; "tax_price";
   "gross_price"; "client_id"].

End Invoice.

(** ** The world outside the repository

    What the client reads from its surroundings: the clock, the
    configuration file, the remote service, and the library routines whose
    inner working the client does not depend on. *)

Record request := mk_request {
  req_method : string;
  req_url : string;
  req_headers : list (string * string);
  req_data : option pyval;   (* form fields, [data=...] *)
  req_json : option pyval    (* JSON body, [json=...] *)
}.

Record response := mk_response {
  status_code : Z;
  resp_json : result pyval   (* [response.json()] *)
}.

Record env := mk_env {
  (** [datetime.date.today()] *)
  today : date;
  (** [toml.load(self.config_path)] *)
  toml_load : result (gmap string pyval);
  (** pydantic's coercion of a field value to [str] *)
  str_validator : pyval -> option string;
  (** pydantic's coercion of a field value to [dict] *)
  dict_validator : pyval -> option (gmap string pyval);
  (** [str(v)] for a float or a container *)
  repr_other : pyval -> string;
  (** the answer of the network to a request, given the requests sent so
      far; [requests] raises when there is none *)
  network : list request -> request -> result response
}.

(** [str(v)]. *)
Definition py_str (e : env) (v : pyval) : string :=
  match v with
  | VNone => "None"
  | VBool true => "True"
  | VBool false => "False"
  | VInt z => str_int z
  | VStr s => s
  | VFloat _ | VList _ | VDict _ => repr_other e v
  end.

(** [Response.raise_for_status] and [Response.ok] of [requests]. *)
Definition raise_for_status (r : response) : result unit :=
  if ((400 <=? status_code r) && (status_code r <? 600))%bool
  then Raise (HTTPError (status_code r))
  else OK tt.

Definition ok (r : response) : bool :=
  match raise_for_status r with
  | OK _ => true
  | Raise _ => false
  end.

(** Computations that talk to the remote service: the log of the requests
    issued so far is threaded through, and kept when an exception is
    raised. *)
Definition M (A : Type) : Type := list request -> result A * list request.

#[global] Instance M_ret : MRet M := fun A a log => (OK a, log).

#[global] Instance M_bind : MBind M := fun A B k c log =>
  match c log with
  | (OK a, log') => k a log'
  | (Raise ex, log') => (Raise ex, log')
  end.

Definition lift {A} (r : result A) : M A := fun log => (r, log).

(** [requests.get], [requests.post], [requests.delete]. *)
Definition http (e : env) (req : request) : M response :=
  fun log => (network e log req, log ++ [req]).

(** ** [client.py]: [Config] *)

Record Config := mk_Config {
  title : string;
  credentials : gmap string string;
  defaults : gmap string pyval
}.

(** [Config.validate_creds], the [pre=True] validator of [credentials]: it
    receives the raw value. *)
Definition validate_creds (creds : pyval) : result pyval :=
  api_key ← py_get creds "api_key" (VStr "");
  n ← py_len api_key;
  if n =? 40 then OK creds else Raise AssertionError.

(** The exceptions that pydantic turns into a validation error of the
    field; any other exception of a validator propagates. *)
Definition collected (ex : exn) : bool :=
  match ex with
  | ValueError | TypeError | AssertionError | ValidationError => true
  | _ => false
  end.

Definition required (raw : gmap string pyval) (name : string) : result pyval :=
  match raw !! name with
  | Some v => OK v
  | None => Raise ValidationError
  end.

Definition validated {A} (o : option A) : result A :=
  match o with
  | Some a => OK a
  | None => Raise ValidationError
  end.

(** The field type [Dict[str, str]]. *)
Definition dict_str_str (e : env) (v : pyval) : result (gmap string string) :=
  match dict_validator e v with
  | Some m =>
      if bool_decide (map_Forall (fun (_ : string) x => is_Some (str_validator e x)) m)
      then OK (omap (str_validator e) m)
      else Raise ValidationError
  | None => Raise ValidationError
  end.

(** The constructor of [Config], called with the table of the file as
    keyword arguments: every field is validated and the errors are reported
    together as one [ValidationError]. *)
Definition Config_new (e : env) (raw : gmap string pyval) : result Config :=
  let title := v ← required raw "title"; validated (str_validator e v) in
  let credentials :=
    v ← required raw "credentials"; v' ← validate_creds v; dict_str_str e v' in
  let defaults := v ← required raw "defaults"; validated (dict_validator e v) in
  match credentials with
  | Raise ex => if collected ex then Raise ValidationError else Raise ex
  | OK c =>
      match title, defaults with
      | OK t, OK d => OK (mk_Config t c d)
      | _, _ => Raise ValidationError
      end
  end.

(** [Config.dict()]. *)
Definition Config_dict (c : Config) : pyval :=
  VDict (<["title" := VStr (title c)]>
        (<["credentials" := VDict (VStr <$> credentials c)]>
        (<["defaults" := VDict (defaults c)]> ∅))).

(** ** [client.py]: [Client] *)

Definition API_URL : string := "https://api.infakt.pl:443/api/v3/".

(** [Client._get_config]: the file is read again at every call. *)
Definition _get_config (e : env) : result Config :=
  raw ← toml_load e; Config_new e raw.

(** [Client._get_headers]. *)
Definition _get_headers (e : env) : result (list (string * string)) :=
  config ← _get_config e;
  match credentials config !! "api_key" with
  | Some api_key => OK [("X-inFakt-ApiKey", api_key)]
  | None => Raise (KeyError "api_key")
  end.

(** The local function [deep_get] of [Client._get_default_from_config]:
    [reduce] folds the segments of the path from the left. *)
Definition deep_get (dictionary : pyval) (keys : string) (default : pyval) : pyval :=
  fold_left
    (fun d key =>
       match d with
       | VDict m =>
           match m !! key with
           | Some v => v
           | None => default
           end
       | _ => default
       end)
    (str_split "." keys) dictionary.

(** [Client._get_default_from_config]. *)
Definition _get_default_from_config (e : env) (value : string) : result pyval :=
  config ← _get_config e;
  let config_dict := Config_dict config in
  OK (deep_get config_dict (("defaults" +:+ ".") +:+ value) VNone).

(** [Client.get_invoice]. *)
Definition get_invoice (e : env) (invoice_number : pyval) : M Invoice.t :=
  let endpoint := API_URL +:+ "invoices/" in
  headers ← lift (_get_headers e);
  response ← http e (mk_request "GET" ((endpoint +:+ py_str e invoice_number) +:+ ".json")
                       headers None None);
  json ← lift (resp_json response);
  lift (Invoice.__init__ json).

(** [Client.send_invoice]. *)
Definition send_invoice (e : env) (invoice_number : pyval) (email : option string)
    (send_copy : bool) : M bool :=
  email ← lift (match email with
                | Some a => OK (VStr a)
                | None => _get_default_from_config e "invoice.client_email"
                end);
  let endpoint := API_URL +:+ "invoices/" in
  let data := VDict (<["print_type" := VStr "original"]>
                    (<["locale" := VStr "pe"]>
                    (<["recipient" := email]>
                    (<["send_copy" := VBool send_copy]> ∅)))) in
  headers ← lift (_get_headers e);
  response ← http e (mk_request "POST"
                       ((endpoint +:+ py_str e invoice_number) +:+ "/deliver_via_email.json")
                       headers (Some data) None);
  if negb (ok response) then mret false else mret true.

(** The keyword arguments of [Client.create_invoice]; [None] is an argument
    left out. *)
Record invoice_kwargs := mk_kwargs {
  kw_service_name : option string;
  kw_client_id : option Z;
  kw_sale_date : option string;
  kw_invoice_date : option string;
  kw_payment_date : option string;
  kw_payment_days : option Z;
  kw_gtu_id : option Z
}.

Definition no_kwargs : invoice_kwargs := mk_kwargs None None None None None None None.

(** The request body that [Client.create_invoice] builds. *)
Definition invoice_payload (e : env) (client_id : pyval)
    (sale_date invoice_date payment_date : string)
    (service_name gross_price_minor gtu_id : pyval) : pyval :=
  VDict {[ "invoice" :=
    VDict (<["client_id" := VStr (py_str e client_id)]>
          (<["payment_method" := VStr "transfer"]>
          (<["sale_date" := VStr sale_date]>
          (<["invoice_date" := VStr invoice_date]>
          (<["payment_date" := VStr payment_date]>
          (<["services" := VList [
               VDict (<["name" := service_name]>
                     (<["gross_price" := gross_price_minor]>
                     (<["tax_symbol" := VInt 23]>
                     (<["gtu_id" := gtu_id]> ∅)))) ]]> ∅)))))) ]}.

(** [Client.create_invoice]. *)
Definition create_invoice (e : env) (gross_price : pyval) (kw : invoice_kwargs)
    : M Invoice.t :=
  let payment_days := default 14 (kw_payment_days kw) in
  service_name ← lift (match kw_service_name kw with
                       | Some s => OK (VStr s)
                       | None => _get_default_from_config e "invoice.service.name"
                       end);
  client_id ← lift (match kw_client_id kw with
                    | Some c => OK (VInt c)
                    | None => _get_default_from_config e "invoice.client_id"
                    end);
  gtu_id ← lift (match kw_gtu_id kw with
                 | Some g => OK (VInt g)
                 | None => _get_default_from_config e "invoice.service.gtu_id"
                 end);
  default_invoice_date ← lift (_get_default_invoice_date (today e));
  default_payment_date ← lift (_get_payment_date default_invoice_date payment_days);
  let sale_date := default default_invoice_date (kw_sale_date kw) in
  let invoice_date := default default_invoice_date (kw_invoice_date kw) in
  let payment_date := default default_payment_date (kw_payment_date kw) in
  gross_price_minor ← lift (py_mul_int gross_price 100);
  let payload := invoice_payload e client_id sale_date invoice_date payment_date
                   service_name gross_price_minor gtu_id in
  headers ← lift (_get_headers e);
  response ← http e (mk_request "POST" (API_URL +:+ "invoices.json") headers None
                       (Some payload));
  _ ← lift (raise_for_status response);
  json ← lift (resp_json response);
  lift (Invoice.__init__ json).

(** [Client.delete_invoice]. *)
Definition delete_invoice (e : env) (invoice_number : pyval) : M bool :=
  let endpoint := API_URL +:+ "invoices/" in
  headers ← lift (_get_headers e);
  response ← http e (mk_request "DELETE" ((endpoint +:+ py_str e invoice_number) +:+ ".json")
                       headers None None);
  mret (ok response).

(** [Client.create_and_send_invoice]. *)
Definition create_and_send_invoice (e : env) (gross_price : pyval) (email : option string)
    (send_copy : bool) (kwargs : invoice_kwargs) : M bool :=
  invoice ← create_invoice e gross_price kwargs;
  was_sent ← send_invoice e (Invoice.id invoice) email send_copy;
  mret was_sent.

(** The statements at the end of [client.py], run when the module is
    loaded: [amount = 28615; c = Client(); c.create_and_send_invoice(amount)]. *)
Definition amount : pyval := VInt 28615.

Definition module_body (e : env) : M bool :=
  create_and_send_invoice e amount None true no_kwargs.

(** ** Reference notions used in the statements *)

(** The rendering that both date functions of the client build by hand:
    the year as [str] prints it, month and day filled to two digits. *)
Definition format_ymd (d : date) : string :=
  str_int (year d) +:+ "-" +:+ zfill 2 (str_int (month d)) +:+ "-"
    +:+ zfill 2 (str_int (day d)).

(** Month and day make a calendar day of the (unbounded) Gregorian
    calendar. *)
Definition md_valid (d : date) : Prop :=
  1 <= month d <= 12 /\ 1 <= day d <= _days_in_month (year d) (month d).

(** The Gregorian rule, in words: every fourth year, except the centuries
    that are not a multiple of 400. *)
Definition gregorian_leap (y : Z) : bool :=
  if y mod 400 =? 0 then true
  else if y mod 100 =? 0 then false
  else y mod 4 =? 0.

(** The last calendar day of a month. *)
Definition last_day_of_month (y m : Z) : Z :=
  match m with
  | 2 => if gregorian_leap y then 29 else 28
  | 4 | 6 | 9 | 11 => 30
  | _ => 31
  end.

(** The day after and the day before, carrying into month and year. *)
Definition next_day (d : date) : date :=
  if day d <? last_day_of_month (year d) (month d)
  then mk_date (year d) (month d) (day d + 1)
  else if month d <? 12 then mk_date (year d) (month d + 1) 1
  else mk_date (year d + 1) 1 1.

Definition prev_day (d : date) : date :=
  if 1 <? day d then mk_date (year d) (month d) (day d - 1)
  else if 1 <? month d
  then mk_date (year d) (month d - 1) (last_day_of_month (year d) (month d - 1))
  else mk_date (year d - 1) 12 31.

(** [n] days later (earlier when [n] is negative), one day at a time. *)
Definition shift_days (d : date) (n : Z) : date :=
  if 0 <=? n then Nat.iter (Z.to_nat n) next_day d
  else Nat.iter (Z.to_nat (- n)) prev_day d.

(** The month that the default invoice date bills for. *)
Definition target_month (today : date) : Z * Z :=
  if month today =? 1 then
    if day today <? 15 then (year today - 1, 12) else (year today, 1)
  else
    if day today <? 15 then (year today, month today - 1)
    else (year today, month today).

(** The month after a month. *)
Definition following_month (y m : Z) : Z * Z :=
  if m <? 12 then (y, m + 1) else (y + 1, 1).

(** Walking a nested mapping along the segments of a path: [None] when a
    segment is missing or the node reached is not a mapping. *)
Fixpoint resolve (node : pyval) (segments : list string) : option pyval :=
  match segments with
  | [] => Some node
  | segment :: rest =>
      match node with
      | VDict m =>
          match m !! segment with
          | Some child => resolve child rest
          | None => None
          end
      | _ => None
      end
  end.

(** The default that a configuration holds at a path of its [defaults]
    table, [None] when there is none. *)
Definition configured (config : Config) (path : list string) : pyval :=
  default VNone (resolve (VDict (defaults config)) path).

(** The first key of [Invoice.keys] that a mapping lacks. *)
Definition first_missing (m : gmap string pyval) : option string :=
  List.find (fun k => bool_decide (m !! k = None)) Invoice.keys.

(** The prices of a response that are present can be divided by 100. *)
Definition prices_divisible (m : gmap string pyval) : Prop :=
  forall k v, In k ["net_price"; "tax_price"; "gross_price"] ->
    m !! k = Some v -> returns (py_truediv_int v 100).

(** The entry of the single service of a creation payload. *)
Definition payload_invoice (payload : pyval) : option (gmap string pyval) :=
  match payload with
  | VDict p =>
      match p !! "invoice" with
      | Some (VDict inv) => Some inv
      | _ => None
      end
  | _ => None
  end.

Definition payload_service (payload : pyval) : option (gmap string pyval) :=
  inv ← payload_invoice payload;
  match inv !! "services" with
  | Some (VList [VDict service]) => Some service
  | _ => None
  end.

(** ** Auxiliary definitions of the proofs *)

(** The part of [_ord2ymd] that follows its four divisions. *)
Definition ord2ymd_tail (n400 n100 n4 n1 n : Z) : date :=
  let year := n400 * 400 + 1 + n100 * 100 + n4 * 4 + n1 in
  if ((n1 =? 4) || (n100 =? 4))%bool then mk_date (year - 1) 12 31
  else
    let leapyear := ((n1 =? 3) && (negb (n4 =? 24) || (n100 =? 3)))%bool in
    let month := Z.shiftr (n + 50) 5 in
    let preceding := _DAYS_BEFORE_MONTH month + Z_of_bool ((2 <? month) && leapyear) in
    if n <? preceding
    then
      let month := month - 1 in
      let preceding := preceding - (mdays month + Z_of_bool ((month =? 2) && leapyear)) in
      mk_date year month (n - preceding + 1)
    else mk_date year month (n - preceding + 1).

(** A test on every integer from 0 below [n]. *)
Fixpoint all_below (n : nat) (f : Z -> bool) : bool :=
  match n with
  | O => true
  | S k => (f (Z.of_nat k) && all_below k f)%bool
  end.

(** Two and four decimal digits, with leading zeros. *)
Definition two_digits (k : Z) : string :=
  String (digit_char (k / 10)) (String (digit_char (k mod 10)) "").

Definition four_digits (k : Z) : string :=
  String (digit_char (k / 1000)) (String (digit_char ((k / 100) mod 10))
    (String (digit_char ((k / 10) mod 10)) (String (digit_char (k mod 10)) ""))).

(** Tests that are run on every number of a range. *)
Definition two_digits_ok (k : Z) : bool :=
  String.eqb (zfill 2 (str_int k)) (two_digits k).

Definition four_digits_ok (k : Z) : bool :=
  (String.eqb (zfill 4 (str_int k)) (four_digits k)
   && (if k <? 1000 then (String.length (str_int k) <? 4)%nat
       else String.eqb (str_int k) (four_digits k)))%bool.

Definition match_md_ok (m : Z) : bool :=
  all_below 32 (fun d =>
    ((m <? 1) || (d <? 1) ||
     match match_md ("-" +:+ two_digits m +:+ "-" +:+ two_digits d) with
     | (m', d', EmptyString) :: _ => (m' =? m) && (d' =? d)
     | _ => false
     end)%bool).

(** The requests of the client, as functions of its arguments: the part of
    each operation that comes before its remote call. *)
Definition create_invoice_request (e : env) (gross_price : pyval) (kw : invoice_kwargs)
    : result request :=
  let payment_days := default 14 (kw_payment_days kw) in
  service_name ← match kw_service_name kw with
                 | Some s => OK (VStr s)
                 | None => _get_default_from_config e "invoice.service.name"
                 end;
  client_id ← match kw_client_id kw with
              | Some c => OK (VInt c)
              | None => _get_default_from_config e "invoice.client_id"
              end;
  gtu_id ← match kw_gtu_id kw with
           | Some g => OK (VInt g)
           | None => _get_default_from_config e "invoice.service.gtu_id"
           end;
  default_invoice_date ← _get_default_invoice_date (today e);
  default_payment_date ← _get_payment_date default_invoice_date payment_days;
  let sale_date := default default_invoice_date (kw_sale_date kw) in
  let invoice_date := default default_invoice_date (kw_invoice_date kw) in
  let payment_date := default default_payment_date (kw_payment_date kw) in
  gross_price_minor ← py_mul_int gross_price 100;
  let payload := invoice_payload e client_id sale_date invoice_date payment_date
                   service_name gross_price_minor gtu_id in
  headers ← _get_headers e;
  OK (mk_request "POST" (API_URL +:+ "invoices.json") headers None (Some payload)).

Definition send_invoice_request (e : env) (invoice_number : pyval) (email : option string)
    (send_copy : bool) : result request :=
  email ← match email with
          | Some a => OK (VStr a)
          | None => _get_default_from_config e "invoice.client_email"
          end;
  let data := VDict (<["print_type" := VStr "original"]>
                    (<["locale" := VStr "pe"]>
                    (<["recipient" := email]>
                    (<["send_copy" := VBool send_copy]> ∅)))) in
  headers ← _get_headers e;
  OK (mk_request "POST"
        (((API_URL +:+ "invoices/") +:+ py_str e invoice_number) +:+ "/deliver_via_email.json")
        headers (Some data) None).

Definition delete_invoice_request (e : env) (invoice_number : pyval) : result request :=
  headers ← _get_headers e;
  OK (mk_request "DELETE" (((API_URL +:+ "invoices/") +:+ py_str e invoice_number) +:+ ".json")
        headers None None).

Definition get_invoice_request (e : env) (invoice_number : pyval) : result request :=
  headers ← _get_headers e;
  OK (mk_request "GET" (((API_URL +:+ "invoices/") +:+ py_str e invoice_number) +:+ ".json")
        headers None None).

(** A request with the given method whose only header is the API key of
    the configuration. *)
Definition keyed_request (e : env) (method : string) (r : request) : Prop :=
  req_method r = method /\
  exists config api_key,
    _get_config e = OK config /\
    credentials config !! "api_key" = Some api_key /\
    req_headers r = [("X-inFakt-ApiKey", api_key)].

(** The log [log'] extends [log] by at most [n] requests, all of them keyed
    requests with the given method. *)
Definition only_requests (e : env) (method : string) (n : nat)
    (log log' : list request) : Prop :=
  exists reqs,
    log' = log ++ reqs /\ (length reqs <= n)%nat /\ Forall (keyed_request e method) reqs.

(** What [create_invoice] makes of the answer to its request. *)
Definition create_invoice_answer (answer : result response) : result Invoice.t :=
  response ← answer;
  _ ← raise_for_status response;
  json ← resp_json response;
  Invoice.__init__ json.

(** ** An example environment

    A configuration with a 40-character key and the four defaults that the
    client looks up, a clock, and a service that answers every request
    with the given status and the same invoice. *)

Definition demo_key : string := "0123456789abcdef0123456789abcdef01234567".

Definition demo_defaults : gmap string pyval :=
  {[ "invoice" :=
       VDict (<["client_id" := VInt 7]>
             (<["client_email" := VStr "client@example.com"]>
             (<["service" := VDict (<["name" := VStr "Consulting"]>
                                   (<["gtu_id" := VInt 12]> ∅))]> ∅))) ]}.

Definition demo_file : gmap string pyval :=
  <["title" := VStr "demo"]>
  (<["credentials" := VDict {[ "api_key" := VStr demo_key ]}]>
  (<["defaults" := VDict demo_defaults]> ∅)).

Definition demo_config : Config :=
  mk_Config "demo" {[ "api_key" := demo_key ]} demo_defaults.

Definition demo_invoice_json : pyval :=
  VDict (<["id" := VInt 55]> (<["number" := VStr "12/2024"]>
        (<["invoice_date" := VStr "2024-02-29"]> (<["sale_date" := VStr "2024-02-29"]>
        (<["net_price" := VInt 23264]> (<["tax_price" := VInt 5351]>
        (<["gross_price" := VInt 28615]> (<["client_id" := VInt 7]> ∅)))))))).

Definition demo_env (status : Z) : env :=
  mk_env (mk_date 2024 3 10) (OK demo_file)
    (fun v => match v with VStr s => Some s | _ => None end)
    (fun v => match v with VDict m => Some m | _ => None end)
    (fun _ => "?")
    (fun _ _ => OK (mk_response status (OK demo_invoice_json))).

(** The same surroundings with an empty table of defaults. *)
Definition bare_file : gmap string pyval := <["defaults" := VDict ∅]> demo_file.

Definition bare_config : Config := mk_Config "demo" {[ "api_key" := demo_key ]} ∅.

Definition bare_env (status : Z) : env :=
  mk_env (today (demo_env status)) (OK bare_file)
    (str_validator (demo_env status)) (dict_validator (demo_env status))
    (repr_other (demo_env status)) (network (demo_env status)).

(** The invoice that the example service returns, and the creation request
    built from the defaults of the example for an amount in minor units. *)
Definition demo_invoice : Invoice.t :=
  Invoice.mk (VInt 55) (VStr "12/2024") (VStr "2024-02-29") (VStr "2024-02-29")
    (VFloat 232.64) (VFloat 53.51) (VFloat 286.15) (VInt 7).

Definition demo_creation_request (gross_price_minor : pyval) : request :=
  mk_request "POST" (API_URL +:+ "invoices.json") [("X-inFakt-ApiKey", demo_key)] None
    (Some (invoice_payload (demo_env 201) (VInt 7) "2024-02-29" "2024-02-29" "2024-03-14"
             (VStr "Consulting") gross_price_minor (VInt 12))).

(** * Proofs

    ** The calendar *)

Ltac divmod := Z.div_mod_to_equations; lia.

Lemma year_split (y : Z) :
  exists a b c e,
    y - 1 = 400 * a + 100 * b + 4 * c + e /\
    0 <= b < 4 /\ 0 <= c < 25 /\ 0 <= e < 4 /\
    _days_before_year y = 146097 * a + 36524 * b + 1461 * c + 365 * e /\
    isleap y = ((e =? 3) && (negb (c =? 24) || (b =? 3)))%bool.
Proof.
  exists ((y - 1) / 400), ((y - 1) mod 400 / 100), ((y - 1) mod 100 / 4), ((y - 1) mod 4).
  unfold _days_before_year, isleap; cbv zeta.
  repeat split; divmod.
Qed.

Lemma _ord2ymd_unfold (n : Z) :
  _ord2ymd n =
  ord2ymd_tail ((n - 1) / 146097) ((n - 1) mod 146097 / 36524)
    (((n - 1) mod 146097) mod 36524 / 1461)
    ((((n - 1) mod 146097) mod 36524) mod 1461 / 365)
    ((((n - 1) mod 146097) mod 36524) mod 1461 mod 365).
Proof. reflexivity. Qed.

Lemma month_cases (m : Z) :
  1 <= m <= 12 ->
  m = 1 \/ m = 2 \/ m = 3 \/ m = 4 \/ m = 5 \/ m = 6 \/
  m = 7 \/ m = 8 \/ m = 9 \/ m = 10 \/ m = 11 \/ m = 12.
Proof. lia. Qed.

Ltac each_month H :=
  destruct (month_cases _ H) as [->|[->|[->|[->|[->|[->|[->|[->|[->|[->|[->| ->]]]]]]]]]]].

(** The month and the day are found from the day of the year. *)
Lemma ord2ymd_tail_month (a b c e m d : Z) :
  0 <= b < 4 -> 0 <= c < 25 -> 0 <= e < 4 ->
  1 <= m <= 12 ->
  let leap := ((e =? 3) && (negb (c =? 24) || (b =? 3)))%bool in
  1 <= d <= (if ((m =? 2) && leap)%bool then 29 else mdays m) ->
  _DAYS_BEFORE_MONTH m + Z_of_bool ((2 <? m) && leap) + d - 1 <= 364 ->
  ord2ymd_tail a b c e (_DAYS_BEFORE_MONTH m + Z_of_bool ((2 <? m) && leap) + d - 1)
  = mk_date (400 * a + 100 * b + 4 * c + e + 1) m d.
Proof.
  intros Hb Hc He Hm leap Hd Hdoy. unfold ord2ymd_tail.
  replace ((e =? 4) || (b =? 4))%bool with false by lia.
  cbv zeta. fold leap. rewrite Z.shiftr_div_pow2 by lia.
  change (2 ^ 5) with 32.
  destruct leap; each_month Hm; cbn in Hd, Hdoy |- *.
  all: match goal with
       | |- context [ (?x `div` 32) ] =>
           let q := fresh "q" in let Hq := fresh "Hq" in
           remember (x `div` 32) as q eqn:Hq;
           assert (Hq' : 32 * q <= x < 32 * q + 32) by (subst q; divmod); clear Hq
       end.
  all: match goal with
       | |- _ = {| year := _; month := ?M; day := _ |} =>
           let M1 := eval vm_compute in (M + 1) in
           assert (Hq : q = M \/ q = M1) by lia; destruct Hq; subst q
       end.
  all: repeat match goal with
       | |- context [ Z_of_bool ?k ] =>
           let v := eval vm_compute in (Z_of_bool k) in change (Z_of_bool k) with v
       | |- context [ _DAYS_BEFORE_MONTH ?k ] =>
           let v := eval vm_compute in (_DAYS_BEFORE_MONTH k) in
           change (_DAYS_BEFORE_MONTH k) with v
       | |- context [ mdays ?k ] =>
           let v := eval vm_compute in (mdays k) in change (mdays k) with v
       end.
  all: match goal with
       | |- context [ (?x <? ?y) ] => destruct (Z.ltb_spec x y)
       end.
  all: try (f_equal; lia).
  all: try (exfalso; lia).
Qed.

(** The four divisions of [_ord2ymd] recover the 400-year, 100-year, 4-year
    and 1-year cycle numbers and the day of the year. *)
Lemma ord2ymd_cycles (a b c e doy : Z) :
  0 <= b < 4 -> 0 <= c < 25 -> 0 <= e < 4 -> 0 <= doy <= 364 ->
  _ord2ymd (146097 * a + 36524 * b + 1461 * c + 365 * e + doy + 1)
  = ord2ymd_tail a b c e doy.
Proof.
  intros Hb Hc He Hdoy. rewrite _ord2ymd_unfold.
  replace (146097 * a + 36524 * b + 1461 * c + 365 * e + doy + 1 - 1)
    with (146097 * a + (36524 * b + (1461 * c + (365 * e + doy)))) by lia.
  assert (H1 : forall k q r, 0 < k -> 0 <= r < k -> (k * q + r) `div` k = q /\ (k * q + r) `mod` k = r).
  { intros k q r Hk Hr. split.
    - symmetry. apply (Z.div_unique _ _ q r); lia.
    - symmetry. apply (Z.mod_unique _ _ q r); lia. }
  destruct (H1 146097 a (36524 * b + (1461 * c + (365 * e + doy)))) as [-> ->]; [lia | lia |].
  destruct (H1 36524 b (1461 * c + (365 * e + doy))) as [-> ->]; [lia | lia |].
  destruct (H1 1461 c (365 * e + doy)) as [-> ->]; [lia | lia |].
  destruct (H1 365 e doy) as [-> ->]; [lia | lia |].
  reflexivity.
Qed.

(** The last day of a leap year is the one ordinal on which the divisions
    overshoot; [_ord2ymd] tests for it. *)
Lemma ord2ymd_leap_end (a b c : Z) :
  0 <= b < 4 -> 0 <= c < 25 -> (c <> 24 \/ b = 3) ->
  _ord2ymd (146097 * a + 36524 * b + 1461 * c + 365 * 3 + 365 + 1)
  = mk_date (400 * a + 100 * b + 4 * c + 3 + 1) 12 31.
Proof.
  intros Hb Hc Hleap. rewrite _ord2ymd_unfold.
  set (N := 146097 * a + 36524 * b + 1461 * c + 365 * 3 + 365 + 1 - 1).
  destruct (Z.eq_dec c 24) as [-> | Hc24].
  - assert (b = 3) as -> by lia.
    assert (N `div` 146097 = a) as -> by (subst N; divmod).
    assert (N `mod` 146097 = 146096) as -> by (subst N; divmod).
    vm_compute (146096 `div` 36524). unfold ord2ymd_tail.
    replace (4 =? 4) with true by reflexivity. rewrite orb_true_r.
    cbv zeta. f_equal. vm_compute (146096 `mod` 36524). vm_compute (0 `div` 1461).
    vm_compute ((0 `mod` 1461) `div` 365). lia.
  - assert (N `div` 146097 = a) as -> by (subst N; divmod).
    assert (N `mod` 146097 = 36524 * b + 1461 * c + 1460) as -> by (subst N; divmod).
    assert ((36524 * b + 1461 * c + 1460) `div` 36524 = b) as -> by divmod.
    assert ((36524 * b + 1461 * c + 1460) `mod` 36524 = 1461 * c + 1460) as -> by divmod.
    assert ((1461 * c + 1460) `div` 1461 = c) as -> by divmod.
    assert ((1461 * c + 1460) `mod` 1461 = 1460) as -> by divmod.
    vm_compute (1460 `div` 365). unfold ord2ymd_tail.
    replace (4 =? 4) with true by reflexivity. rewrite orb_true_l.
    cbv zeta. f_equal. lia.
Qed.

Ltac closed_arith :=
  repeat match goal with
  | |- context [ Z.pos ?a + Z.pos ?b ] =>
      let v := eval vm_compute in (Z.pos a + Z.pos b) in
      change (Z.pos a + Z.pos b) with v
  | |- context [ Z.pos ?a - Z.pos ?b ] =>
      let v := eval vm_compute in (Z.pos a - Z.pos b) in
      change (Z.pos a - Z.pos b) with v
  | H : context [ Z.pos ?a + Z.pos ?b ] |- _ =>
      let v := eval vm_compute in (Z.pos a + Z.pos b) in
      change (Z.pos a + Z.pos b) with v in H
  | H : context [ Z.pos ?a - Z.pos ?b ] |- _ =>
      let v := eval vm_compute in (Z.pos a - Z.pos b) in
      change (Z.pos a - Z.pos b) with v in H
  end.

Ltac tables :=
  closed_arith;
  cbv [mdays _DAYS_BEFORE_MONTH Z_of_bool andb orb negb Z.eqb Pos.eqb Z.ltb
       Z.compare Pos.compare Pos.compare_cont] in *.

Lemma doy_bounds (leap : bool) (m d : Z) :
  1 <= m <= 12 ->
  1 <= d <= (if ((m =? 2) && leap)%bool then 29 else mdays m) ->
  0 <= _DAYS_BEFORE_MONTH m + Z_of_bool ((2 <? m) && leap) + d - 1 <= 364 + Z_of_bool leap
  /\ (_DAYS_BEFORE_MONTH m + Z_of_bool ((2 <? m) && leap) + d - 1 = 365 -> m = 12 /\ d = 31).
Proof.
  intros Hm Hd. destruct leap; each_month Hm; tables; lia.
Qed.

Lemma _ord2ymd_ymd2ord (y m d : Z) :
  1 <= m <= 12 -> 1 <= d <= _days_in_month y m ->
  _ord2ymd (_ymd2ord y m d) = mk_date y m d.
Proof.
  intros Hm Hd.
  destruct (year_split y) as (a & b & c & e & Hy & Hb & Hc & He & Hdby & Hleap).
  unfold _ymd2ord, _days_before_month, _days_in_month in *.
  rewrite Hdby. rewrite Hleap in *.
  set (leap := ((e =? 3) && (negb (c =? 24) || (b =? 3)))%bool) in *.
  set (doy := _DAYS_BEFORE_MONTH m + Z_of_bool ((2 <? m) && leap) + d - 1).
  destruct (doy_bounds leap m d Hm Hd) as [Hdoy Hlast]. fold doy in Hdoy, Hlast.
  destruct (Z.eq_dec doy 365) as [H365 | H365].
  - assert (Hl : leap = true) by (destruct leap; [reflexivity | cbn in Hdoy; lia]).
    destruct (Hlast H365) as [-> ->].
    assert (He3 : e = 3 /\ (c <> 24 \/ b = 3)) by (subst leap; lia).
    destruct He3 as [-> Hcb].
    replace (_ + _ + 31) with (146097 * a + 36524 * b + 1461 * c + 365 * 3 + 365 + 1)
      by (rewrite Hl; tables; lia).
    rewrite ord2ymd_leap_end by lia. f_equal; lia.
  - replace (_ + _ + d) with (146097 * a + 36524 * b + 1461 * c + 365 * e + doy + 1) by (subst doy; lia).
    rewrite ord2ymd_cycles; [| lia | lia | lia |].
    + subst doy. fold leap. rewrite ord2ymd_tail_month; try lia.
      * f_equal; lia.
      * exact Hd.
      * fold leap. destruct leap; cbn in Hdoy; lia.
    + destruct leap; cbn in Hdoy; lia.
Qed.

Lemma last_day_of_month_eq (y m : Z) :
  1 <= m <= 12 -> last_day_of_month y m = _days_in_month y m.
Proof.
  intros Hm. unfold last_day_of_month, _days_in_month, gregorian_leap, isleap.
  each_month Hm; try reflexivity.
  cbn [Z.eqb Pos.eqb andb mdays].
  repeat match goal with |- context [ (?x =? 0) ] => destruct (Z.eqb_spec x 0) end;
    cbn; try reflexivity; exfalso; divmod.
Qed.

Lemma _days_before_year_succ (y : Z) :
  _days_before_year (y + 1) = _days_before_year y + 365 + Z_of_bool (isleap y).
Proof.
  unfold _days_before_year; cbv zeta.
  destruct (isleap y) eqn:E; unfold isleap in E; cbn [Z_of_bool]; divmod.
Qed.

Lemma _days_before_year_mono (y1 y2 : Z) :
  y1 <= y2 -> _days_before_year y1 <= _days_before_year y2.
Proof. unfold _days_before_year; cbv zeta. intros. divmod. Qed.

(** The ordinals of a year lie between the days before it and the days
    before the next one. *)
Lemma toordinal_bounds (d : date) :
  md_valid d ->
  _days_before_year (year d) < toordinal d <= _days_before_year (year d + 1).
Proof.
  intros [Hm Hd]. rewrite _days_before_year_succ.
  unfold toordinal, _ymd2ord, _days_before_month, _days_in_month in *.
  destruct (doy_bounds (isleap (year d)) (month d) (day d) Hm Hd) as [Hb _]. lia.
Qed.

Lemma toordinal_year_range (d : date) :
  md_valid d ->
  (MINYEAR <= year d <= MAXYEAR) <-> (0 < toordinal d <= _MAXORDINAL).
Proof.
  intros Hv. pose proof (toordinal_bounds d Hv) as Hb.
  unfold MINYEAR, MAXYEAR, _MAXORDINAL.
  change 0 with (_days_before_year 1). change 3652059 with (_days_before_year 10000).
  split.
  - intros [H1 H2].
    pose proof (_days_before_year_mono 1 (year d) H1).
    pose proof (_days_before_year_mono (year d + 1) 10000 ltac:(lia)). lia.
  - intros [H1 H2].
    destruct (Z_le_gt_dec 1 (year d)) as [Hy1 | Hy1].
    + split; [exact Hy1 |].
      destruct (Z_le_gt_dec (year d) 9999) as [Hy2 | Hy2]; [exact Hy2 |].
      pose proof (_days_before_year_mono 10000 (year d) ltac:(lia)). lia.
    + pose proof (_days_before_year_mono (year d + 1) 1 ltac:(lia)). lia.
Qed.

Lemma toordinal_next_day (d : date) :
  md_valid d -> md_valid (next_day d) /\ toordinal (next_day d) = toordinal d + 1.
Proof.
  destruct d as [y m dd]. intros [Hm Hd]. unfold next_day. cbn [year month day] in *.
  rewrite last_day_of_month_eq by exact Hm.
  destruct (Z.ltb_spec dd (_days_in_month y m)) as [Hlt | Hge].
  - split; [split; cbn; lia |]. unfold toordinal, _ymd2ord; cbn. lia.
  - assert (Hlast : dd = _days_in_month y m) by lia.
    destruct (Z.ltb_spec m 12) as [Hm12 | Hm12].
    + unfold md_valid, toordinal, _ymd2ord, _days_before_month, _days_in_month in *; cbn [year month day].
      rewrite Hlast. clear Hlast Hge Hd.
      destruct (isleap y); each_month Hm; try lia; tables; lia.
    + assert (Hm' : m = 12) by lia.
      unfold md_valid, toordinal, _ymd2ord, _days_before_month, _days_in_month in *; cbn [year month day].
      rewrite _days_before_year_succ. rewrite Hm' in *. rewrite Hlast.
      destruct (isleap y); tables; lia.
Qed.

Lemma toordinal_prev_day (d : date) :
  md_valid d -> md_valid (prev_day d) /\ toordinal (prev_day d) = toordinal d - 1.
Proof.
  destruct d as [y m dd]. intros [Hm Hd]. unfold prev_day. cbn [year month day] in *.
  destruct (Z.ltb_spec 1 dd) as [Hlt | Hge].
  - split; [split; cbn; lia |]. unfold toordinal, _ymd2ord; cbn. lia.
  - assert (Hfirst : dd = 1) by lia.
    destruct (Z.ltb_spec 1 m) as [Hm1 | Hm1].
    + rewrite last_day_of_month_eq by lia.
      unfold md_valid, toordinal, _ymd2ord, _days_before_month, _days_in_month in *; cbn [year month day].
      rewrite Hfirst. clear Hfirst Hge Hd.
      destruct (isleap y); each_month Hm; try lia; tables; lia.
    + assert (Hm' : m = 1) by lia.
      unfold md_valid, toordinal, _ymd2ord, _days_before_month, _days_in_month in *; cbn [year month day].
      pose proof (_days_before_year_succ (y - 1)) as Hs.
      replace (y - 1 + 1) with y in Hs by lia.
      rewrite Hs, Hm', Hfirst. clear Hs.
      destruct (isleap (y - 1)); destruct (isleap y); tables; lia.
Qed.

Lemma toordinal_iter_next (k : nat) (d : date) :
  md_valid d ->
  md_valid (Nat.iter k next_day d) /\
  toordinal (Nat.iter k next_day d) = toordinal d + Z.of_nat k.
Proof.
  intros Hv. induction k as [| k [IHv IHo]].
  - cbn. split; [exact Hv | lia].
  - change (Nat.iter (S k) next_day d) with (next_day (Nat.iter k next_day d)).
    destruct (toordinal_next_day _ IHv) as [Hv' Ho'].
    split; [exact Hv' | lia].
Qed.

Lemma toordinal_iter_prev (k : nat) (d : date) :
  md_valid d ->
  md_valid (Nat.iter k prev_day d) /\
  toordinal (Nat.iter k prev_day d) = toordinal d - Z.of_nat k.
Proof.
  intros Hv. induction k as [| k [IHv IHo]].
  - cbn. split; [exact Hv | lia].
  - change (Nat.iter (S k) prev_day d) with (prev_day (Nat.iter k prev_day d)).
    destruct (toordinal_prev_day _ IHv) as [Hv' Ho'].
    split; [exact Hv' | lia].
Qed.

(** Stepping through the calendar one day at a time moves the ordinal by
    the number of steps. *)
Lemma toordinal_shift_days (d : date) (n : Z) :
  md_valid d ->
  md_valid (shift_days d n) /\ toordinal (shift_days d n) = toordinal d + n.
Proof.
  intros Hv. unfold shift_days. destruct (Z.leb_spec 0 n) as [Hn | Hn].
  - destruct (toordinal_iter_next (Z.to_nat n) d Hv) as [H1 H2]. split; [exact H1 | lia].
  - destruct (toordinal_iter_prev (Z.to_nat (- n)) d Hv) as [H1 H2]. split; [exact H1 | lia].
Qed.

Lemma _ord2ymd_toordinal (d : date) : md_valid d -> _ord2ymd (toordinal d) = d.
Proof.
  intros [Hm Hd]. unfold toordinal. rewrite _ord2ymd_ymd2ord by assumption.
  destruct d; reflexivity.
Qed.

(** The ordinal arithmetic of [datetime] is the day-by-day calendar. *)
Lemma _ord2ymd_shift (d : date) (n : Z) :
  md_valid d -> _ord2ymd (toordinal d + n) = shift_days d n.
Proof.
  intros Hv. destruct (toordinal_shift_days d n Hv) as [Hv' Ho].
  rewrite <- Ho. apply _ord2ymd_toordinal, Hv'.
Qed.

Lemma valid_date_iff (d : date) :
  valid_date d <-> (MINYEAR <= year d <= MAXYEAR) /\ md_valid d.
Proof. unfold valid_date, valid_dateb, md_valid. lia. Qed.

Lemma date_add_shift (d : date) (n : Z) :
  md_valid d ->
  date_add d n =
    if decide (MINYEAR <= year (shift_days d n) <= MAXYEAR)
    then OK (shift_days d n) else Raise OverflowError.
Proof.
  intros Hv. unfold date_add. cbv zeta.
  destruct (toordinal_shift_days d n Hv) as [Hv' Ho].
  pose proof (toordinal_year_range _ Hv') as Hr. rewrite Ho in Hr.
  rewrite _ord2ymd_shift by exact Hv.
  destruct (decide _) as [Hy | Hy].
  - apply Hr in Hy. replace (_ && _)%bool with true by lia. reflexivity.
  - replace (_ && _)%bool with false; [reflexivity |].
    symmetry. apply not_true_is_false. intros Hc. apply Hy, Hr. lia.
Qed.

(** ** Decimal strings *)

Lemma all_below_nat (n : nat) (f : Z -> bool) :
  all_below n f = true -> forall z, 0 <= z < Z.of_nat n -> f z = true.
Proof.
  induction n as [| n IH]; intros Hall z Hz; [lia |].
  cbn [all_below] in Hall. apply andb_prop in Hall as [Hn Hrest].
  destruct (Z.eq_dec z (Z.of_nat n)) as [-> | Hne]; [exact Hn |].
  apply IH; [exact Hrest | lia].
Qed.

Lemma all_below_spec (n : Z) (f : Z -> bool) :
  all_below (Z.to_nat n) f = true -> forall z, 0 <= z < n -> f z = true.
Proof. intros Hall z Hz. apply (all_below_nat _ _ Hall). lia. Qed.

Lemma two_digits_all : all_below (Z.to_nat 100) two_digits_ok = true.
Proof. vm_cast_no_check (eq_refl true). Qed.

Lemma four_digits_all : all_below (Z.to_nat 10000) four_digits_ok = true.
Proof. vm_cast_no_check (eq_refl true). Qed.

Lemma match_md_all : all_below (Z.to_nat 13) match_md_ok = true.
Proof. vm_cast_no_check (eq_refl true). Qed.

Lemma zfill_two_digits (k : Z) : 0 <= k <= 99 -> zfill 2 (str_int k) = two_digits k.
Proof.
  intros Hk. apply String.eqb_eq.
  apply (all_below_spec 100 two_digits_ok two_digits_all). lia.
Qed.

Lemma zfill_four_digits (k : Z) : 0 <= k <= 9999 -> zfill 4 (str_int k) = four_digits k.
Proof.
  intros Hk.
  pose proof (all_below_spec 10000 four_digits_ok four_digits_all k ltac:(lia)) as H.
  unfold four_digits_ok in H. apply andb_prop in H as [H _].
  apply String.eqb_eq, H.
Qed.

Lemma str_int_four_digits (k : Z) : 1000 <= k <= 9999 -> str_int k = four_digits k.
Proof.
  intros Hk.
  pose proof (all_below_spec 10000 four_digits_ok four_digits_all k ltac:(lia)) as H.
  unfold four_digits_ok in H. apply andb_prop in H as [_ H].
  replace (k <? 1000) with false in H by lia. apply String.eqb_eq, H.
Qed.

Lemma str_int_short (k : Z) : 0 <= k < 1000 -> (String.length (str_int k) < 4)%nat.
Proof.
  intros Hk.
  pose proof (all_below_spec 10000 four_digits_ok four_digits_all k ltac:(lia)) as H.
  unfold four_digits_ok in H. apply andb_prop in H as [_ H].
  replace (k <? 1000) with true in H by lia. apply Nat.ltb_lt, H.
Qed.

Lemma digit_char_ok (k : Z) :
  0 <= k <= 9 -> is_digit (digit_char k) = true /\ digit_val (digit_char k) = k.
Proof.
  intros Hk.
  assert (Hc : k = 0 \/ k = 1 \/ k = 2 \/ k = 3 \/ k = 4 \/ k = 5 \/ k = 6 \/ k = 7 \/
               k = 8 \/ k = 9) by lia.
  destruct Hc as [->|[->|[->|[->|[->|[->|[->|[->|[->| ->]]]]]]]]]; split; reflexivity.
Qed.

Lemma match_Y_four_digits (y : Z) (rest : string) :
  0 <= y <= 9999 -> match_Y (four_digits y +:+ rest) = [(y, rest)].
Proof.
  intros Hy.
  change (four_digits y +:+ rest) with
    (String (digit_char (y / 1000)) (String (digit_char ((y / 100) mod 10))
      (String (digit_char ((y / 10) mod 10)) (String (digit_char (y mod 10)) rest)))).
  unfold match_Y.
  destruct (digit_char_ok (y / 1000)) as [-> ->]; [divmod |].
  destruct (digit_char_ok ((y / 100) mod 10)) as [-> ->]; [divmod |].
  destruct (digit_char_ok ((y / 10) mod 10)) as [-> ->]; [divmod |].
  destruct (digit_char_ok (y mod 10)) as [-> ->]; [divmod |].
  cbn [andb]. do 2 f_equal. divmod.
Qed.

Lemma match_md_two_digits (m d : Z) :
  1 <= m <= 12 -> 1 <= d <= 31 ->
  exists rest, match_md ("-" +:+ two_digits m +:+ "-" +:+ two_digits d) = (m, d, "") :: rest.
Proof.
  intros Hm Hd.
  pose proof (all_below_spec 13 match_md_ok match_md_all m ltac:(lia)) as H.
  unfold match_md_ok in H.
  pose proof (all_below_nat 32 _ H d ltac:(lia)) as H'. cbv beta in H'.
  replace (m <? 1) with false in H' by lia. replace (d <? 1) with false in H' by lia.
  cbn [orb] in H'.
  destruct (match_md _) as [| [[m' d'] [|c s]] rest]; try discriminate.
  apply andb_prop in H' as [Hm' Hd'].
  apply Z.eqb_eq in Hm', Hd'. subst. eauto.
Qed.

(** Parsing the ISO rendering of a date gives the date back. *)
Lemma days_in_month_le_31 (y m : Z) : 1 <= m <= 12 -> _days_in_month y m <= 31.
Proof.
  intros Hm. unfold _days_in_month. destruct (_ && _)%bool; [lia |].
  each_month Hm; cbn; lia.
Qed.

Lemma strptime_isoformat (d : date) : valid_date d -> strptime_ymd (isoformat d) = OK d.
Proof.
  intros Hv. pose proof Hv as Hv'. apply valid_date_iff in Hv' as [Hy [Hm Hd]].
  unfold MINYEAR, MAXYEAR in Hy.
  pose proof (days_in_month_le_31 (year d) (month d) Hm) as Hd31.
  unfold isoformat.
  rewrite zfill_four_digits, !zfill_two_digits by lia.
  unfold strptime_ymd, match_ymd.
  rewrite match_Y_four_digits by lia. rewrite bind_singleton.
  destruct (match_md_two_digits (month d) (day d)) as [rest ->]; [lia | lia |].
  rewrite bind_cons. cbn [app].
  unfold date_new. destruct d as [y m dd]; cbn [year month day] in *.
  unfold valid_date in Hv. rewrite Hv. reflexivity.
Qed.

Lemma format_ymd_isoformat (d : date) :
  1000 <= year d <= 9999 -> format_ymd d = isoformat d.
Proof.
  intros Hy. unfold format_ymd, isoformat.
  rewrite zfill_four_digits, str_int_four_digits by lia. reflexivity.
Qed.

Lemma string_length_append (s1 s2 : string) :
  String.length (s1 +:+ s2) = (String.length s1 + String.length s2)%nat.
Proof.
  induction s1 as [| c s1 IH]; [reflexivity |].
  change (S (String.length (s1 +:+ s2)) = S (String.length s1 + String.length s2))%nat.
  f_equal. exact IH.
Qed.

Lemma format_ymd_length (d : date) :
  0 <= month d <= 99 -> 0 <= day d <= 99 ->
  String.length (format_ymd d) = (String.length (str_int (year d)) + 6)%nat.
Proof.
  intros Hm Hd. unfold format_ymd.
  rewrite !zfill_two_digits by lia.
  rewrite !string_length_append. unfold two_digits.
  change (String.length (String _ (String _ ""))) with 2%nat.
  change (String.length "-") with 1%nat. lia.
Qed.

Lemma isoformat_length (d : date) :
  0 <= year d <= 9999 -> 0 <= month d <= 99 -> 0 <= day d <= 99 ->
  String.length (isoformat d) = 10%nat.
Proof.
  intros Hy Hm Hd. unfold isoformat.
  rewrite zfill_four_digits, !zfill_two_digits by lia.
  reflexivity.
Qed.

(** ** The default invoice date *)

Lemma days_in_month_ge_28 (y m : Z) : 1 <= m <= 12 -> 28 <= _days_in_month y m.
Proof.
  intros Hm. unfold _days_in_month. destruct (_ && _)%bool; [lia |].
  each_month Hm; cbn; lia.
Qed.

Lemma monthrange_ndays_last_day (y m : Z) :
  1 <= m <= 12 -> monthrange_ndays y m = OK (last_day_of_month y m).
Proof.
  intros Hm. unfold monthrange_ndays. replace (_ && _)%bool with true by lia.
  f_equal. rewrite last_day_of_month_eq by exact Hm. unfold _days_in_month.
  destruct (isleap y); each_month Hm; reflexivity.
Qed.

(** The first of the month is a date, and for a month after January the
    day before it lies in the month before, of the same year. *)
Lemma first_of_month_valid (today : date) :
  valid_date today -> date_replace_day today 1 = OK (mk_date (year today) (month today) 1).
Proof.
  intros Hv. apply valid_date_iff in Hv as [Hy [Hm Hd]].
  pose proof (days_in_month_ge_28 (year today) (month today) Hm).
  unfold date_replace_day, date_new, valid_dateb. cbn [year month day].
  replace (_ && _)%bool with true by lia. reflexivity.
Qed.

Lemma day_before_first (y m : Z) :
  MINYEAR <= y <= MAXYEAR -> 2 <= m <= 12 ->
  date_sub (mk_date y m 1) 1 = OK (mk_date y (m - 1) (last_day_of_month y (m - 1))).
Proof.
  intros Hy Hm. unfold date_sub. rewrite date_add_shift.
  - change (shift_days (mk_date y m 1) (- (1))) with (prev_day (mk_date y m 1)).
    assert (Hp : prev_day (mk_date y m 1)
                 = mk_date y (m - 1) (last_day_of_month y (m - 1))).
    { unfold prev_day; cbn [year month day]. change (1 <? 1) with false.
      replace (1 <? m) with true by lia. reflexivity. }
    rewrite Hp. destruct (decide _) as [_ | Hn]; [reflexivity | cbn [year] in Hn; lia].
  - split; cbn [year month day]; [lia |].
    pose proof (days_in_month_ge_28 y m ltac:(lia)). lia.
Qed.

Lemma target_month_range (today : date) :
  valid_date today ->
  0 <= fst (target_month today) <= 9999 /\ 1 <= snd (target_month today) <= 12.
Proof.
  intros Hv. apply valid_date_iff in Hv as [Hy [Hm Hd]].
  unfold MINYEAR, MAXYEAR in Hy. unfold target_month.
  destruct (month today =? 1) eqn:E1; destruct (day today <? 15); cbn [fst snd]; lia.
Qed.

Lemma default_invoice_date_value (today : date) :
  valid_date today ->
  _get_default_invoice_date today =
    OK (format_ymd (mk_date (fst (target_month today)) (snd (target_month today))
          (last_day_of_month (fst (target_month today)) (snd (target_month today))))).
Proof.
  intros Hv. pose proof (target_month_range today Hv) as [_ Hm'].
  pose proof Hv as Hv'. apply valid_date_iff in Hv' as [Hy [Hm Hd]].
  unfold _get_default_invoice_date. rewrite (first_of_month_valid today Hv).
  cbn [mbind result_bind]. unfold target_month in *.
  destruct (month today =? 1) eqn:E1; destruct (day today <? 15) eqn:E15;
    cbn [mbind result_bind fst snd] in *.
  - rewrite monthrange_ndays_last_day by lia. reflexivity.
  - rewrite monthrange_ndays_last_day by lia. cbn [mbind result_bind].
    replace (month today) with 1 by lia. reflexivity.
  - change (timedelta_days 1) with (OK (A:=Z) 1). cbn [mbind result_bind].
    rewrite day_before_first by lia. cbn [mbind result_bind month].
    rewrite monthrange_ndays_last_day by lia. reflexivity.
  - rewrite monthrange_ndays_last_day by lia. reflexivity.
Qed.

(** C1: for every date [today] from the year 1001 on (the function reads
    the date from the clock), the default invoice date is the last calendar
    day of the target month, written YYYY-MM-DD. The target month is
    December of the previous year for a January day before the 15th,
    January of the same year for a January day from the 15th on, the
    previous month of the same year for a day before the 15th of another
    month, and the month of [today] otherwise; the 15th selects the month
    of [today]. The four dated examples of the claim hold. *)
Theorem default_invoice_date_last_day (today : date) :
  valid_date today ->
  1001 <= year today ->
  let y := fst (target_month today) in
  let m := snd (target_month today) in
  let last := mk_date y m (last_day_of_month y m) in
  _get_default_invoice_date today = OK (isoformat last)
  /\ valid_date last /\ day (next_day last) = 1
  /\ (month today = 1 -> day today < 15 -> (y, m) = (year today - 1, 12))
  /\ (month today = 1 -> 15 <= day today -> (y, m) = (year today, 1))
  /\ (month today <> 1 -> day today < 15 -> (y, m) = (year today, month today - 1))
  /\ (month today <> 1 -> 15 <= day today -> (y, m) = (year today, month today))
  /\ (day today = 15 -> (y, m) = (year today, month today))
  /\ _get_default_invoice_date (mk_date 2024 1 10) = OK "2023-12-31"
  /\ _get_default_invoice_date (mk_date 2024 1 20) = OK "2024-01-31"
  /\ _get_default_invoice_date (mk_date 2024 3 10) = OK "2024-02-29"
  /\ _get_default_invoice_date (mk_date 2024 3 20) = OK "2024-03-31".
Proof.
  intros Hv H1001 y m last.
  pose proof (target_month_range today Hv) as [Hy Hm]. fold y in Hy. fold m in Hm.
  assert (Hy' : 1000 <= y).
  { subst y. unfold target_month.
    destruct (month today =? 1); destruct (day today <? 15); cbn [fst]; lia. }
  subst last.
  assert (Hlast : md_valid (mk_date y m (last_day_of_month y m))).
  { split; cbn [year month day]; [exact Hm |].
    rewrite last_day_of_month_eq by exact Hm.
    pose proof (days_in_month_ge_28 y m Hm). lia. }
  split.
  { rewrite (default_invoice_date_value today Hv). fold y m. f_equal.
    apply format_ymd_isoformat. cbn [year]. lia. }
  split.
  { apply valid_date_iff. split; [cbn [year]; unfold MINYEAR, MAXYEAR; lia | exact Hlast]. }
  split.
  { unfold next_day. cbn [year month day]. rewrite Z.ltb_irrefl.
    destruct (m <? 12); reflexivity. }
  assert (Hcases : forall (b1 b15 : bool) (ym : Z * Z),
            (month today =? 1) = b1 -> (day today <? 15) = b15 ->
            (if b1 then if b15 then (year today - 1, 12) else (year today, 1)
             else if b15 then (year today, month today - 1)
                  else (year today, month today)) = ym ->
            (y, m) = ym).
  { intros b1 b15 ym E1 E15 <-. subst y m. unfold target_month. rewrite E1, E15.
    destruct b1; destruct b15; reflexivity. }
  split; [intros; apply (Hcases true true); [lia | lia | reflexivity] |].
  split; [intros; apply (Hcases true false); [lia | lia | reflexivity] |].
  split; [intros; apply (Hcases false true); [lia | lia | reflexivity] |].
  split; [intros; apply (Hcases false false); [lia | lia | reflexivity] |].
  split.
  { intros H15. destruct (Z.eq_dec (month today) 1) as [E1 | E1].
    - apply (Hcases true false); [lia | lia | f_equal; lia].
    - apply (Hcases false false); [lia | lia | reflexivity]. }
  repeat split; vm_compute; reflexivity.
Qed.

Lemma default_invoice_date_last_day_witness :
  valid_date (mk_date 2024 3 10) /\ 1001 <= year (mk_date 2024 3 10) /\
  _get_default_invoice_date (mk_date 2024 3 10) = OK (isoformat (mk_date 2024 2 29)).
Proof.
  split; [reflexivity |]. split; [vm_compute; discriminate |].
  refine (proj1 (default_invoice_date_last_day (mk_date 2024 3 10) eq_refl _)).
  vm_compute. discriminate.
Defined.

(** ** The payment date *)

(** C5, as stated, fails for some integers: the sum must stay within the
    years 1 to 9999 of [datetime.date], and a year below 1000 is printed
    with fewer than four digits. *)
Lemma payment_date_not_total :
  valid_date (mk_date 9999 12 31) /\
  isoformat (mk_date 9999 12 31) = "9999-12-31" /\
  _get_payment_date "9999-12-31" 1 = Raise OverflowError /\
  valid_date (mk_date 999 1 1) /\
  isoformat (mk_date 999 1 1) = "0999-01-01" /\
  _get_payment_date "0999-01-01" 0 = OK "999-01-01".
Proof. repeat split; vm_compute; reflexivity. Qed.

(** C5 (amended): for every date [d] written YYYY-MM-DD and every integer
    [n], when [n] is a valid [timedelta] (at most 999999999 days either
    way) and the day [n] days after [d] (before, for a negative [n]),
    reached one calendar day at a time with month and year carrying, lies
    in the years 1 to 9999, the payment date is that day, rendered as
    year-month-day with month and day filled to two digits; this is
    YYYY-MM-DD when its year is at least 1000. Otherwise [OverflowError] is
    raised. In particular 2024-01-31 plus 14 days is 2024-02-14. *)
Theorem payment_date_calendar (d : date) (n : Z) :
  valid_date d ->
  let due := shift_days d n in
  (-999999999 <= n <= 999999999 -> MINYEAR <= year due <= MAXYEAR ->
     _get_payment_date (isoformat d) n = OK (format_ymd due)
     /\ valid_date due
     /\ toordinal due = toordinal d + n
     /\ (1000 <= year due -> format_ymd due = isoformat due))
  /\ (~ (-999999999 <= n <= 999999999 /\ MINYEAR <= year due <= MAXYEAR) ->
      _get_payment_date (isoformat d) n = Raise OverflowError)
  /\ _get_payment_date "2024-01-31" 14 = OK "2024-02-14".
Proof.
  intros Hv due. subst due.
  pose proof Hv as Hv'. apply valid_date_iff in Hv' as [Hy Hmd].
  destruct (toordinal_shift_days d n Hmd) as [Hmd' Hord].
  assert (Hrun : _get_payment_date (isoformat d) n =
                 (delta ← timedelta_days n; due ← date_add d delta; OK (format_ymd due))).
  { unfold _get_payment_date. rewrite strptime_isoformat by exact Hv. reflexivity. }
  rewrite Hrun. unfold timedelta_days.
  split; [| split].
  - intros Hn Hyear. replace (_ && _)%bool with true by lia.
    cbn [mbind result_bind]. rewrite date_add_shift by exact Hmd.
    destruct (decide _) as [_ | Hno]; [| contradiction].
    split; [reflexivity |].
    split; [apply valid_date_iff; split; assumption |].
    split; [exact Hord |].
    intros H1000. apply format_ymd_isoformat. unfold MAXYEAR in Hyear. lia.
  - intros Hno.
    destruct ((-999999999 <=? n) && (n <=? 999999999))%bool eqn:En;
      cbn [mbind result_bind]; [| reflexivity].
    rewrite date_add_shift by exact Hmd.
    destruct (decide _) as [Hyear | _]; [| reflexivity].
    exfalso. apply Hno. split; [lia | exact Hyear].
  - vm_compute. reflexivity.
Qed.

Lemma payment_date_calendar_witness :
  valid_date (mk_date 2024 1 31) /\
  _get_payment_date (isoformat (mk_date 2024 1 31)) 14 = OK "2024-02-14".
Proof.
  split; [reflexivity |].
  refine (proj1 (proj1 (payment_date_calendar (mk_date 2024 1 31) 14 eq_refl) _ _));
    vm_compute; split; discriminate.
Defined.

(** ** Dotted-path lookup *)

Lemma string_append_assoc (s1 s2 s3 : string) : (s1 +:+ s2) +:+ s3 = s1 +:+ (s2 +:+ s3).
Proof.
  induction s1 as [| c s1 IH]; [reflexivity |].
  change (String c ((s1 +:+ s2) +:+ s3) = String c (s1 +:+ (s2 +:+ s3))).
  f_equal. exact IH.
Qed.

Lemma string_append_empty_r (s : string) : s +:+ "" = s.
Proof.
  induction s as [| c s IH]; [reflexivity |].
  change (String c (s +:+ "") = String c s). f_equal. exact IH.
Qed.

Lemma split_go_cons (sep : ascii) (s cur : string) :
  exists seg segs, split_go sep s cur = seg :: segs.
Proof.
  revert cur. induction s as [| c s IH]; intros cur; cbn [split_go].
  - eauto.
  - destruct (Ascii.eqb c sep); [eauto | apply IH].
Qed.

Lemma str_join_cons (sep : ascii) (p q : string) (ps : list string) :
  str_join sep (p :: q :: ps) = p +:+ String sep (str_join sep (q :: ps)).
Proof. reflexivity. Qed.

(** Joining the segments with the separator gives the string back. *)
Lemma str_join_split_go (sep : ascii) (s cur : string) :
  str_join sep (split_go sep s cur) = cur +:+ s.
Proof.
  revert cur. induction s as [| c s IH]; intros cur; cbn [split_go].
  - cbn [str_join]. now rewrite string_append_empty_r.
  - destruct (Ascii.eqb_spec c sep) as [-> | Hne].
    + destruct (split_go_cons sep s "") as (seg & segs & Hs).
      specialize (IH ""). rewrite Hs in *. rewrite str_join_cons, IH. reflexivity.
    + rewrite IH, string_append_assoc. reflexivity.
Qed.

Lemma contains_char_append (c : ascii) (s1 s2 : string) :
  contains_char c (s1 +:+ s2) = (contains_char c s1 || contains_char c s2)%bool.
Proof.
  induction s1 as [| c1 s1 IH]; [reflexivity |].
  change (contains_char c (String c1 (s1 +:+ s2))
          = (contains_char c (String c1 s1) || contains_char c s2)%bool).
  cbn [contains_char]. rewrite IH, orb_assoc. reflexivity.
Qed.

(** No segment contains the separator. *)
Lemma split_go_no_sep (sep : ascii) (s cur : string) :
  contains_char sep cur = false ->
  Forall (fun seg => contains_char sep seg = false) (split_go sep s cur).
Proof.
  revert cur. induction s as [| c s IH]; intros cur Hcur; cbn [split_go].
  - constructor; [exact Hcur | constructor].
  - destruct (Ascii.eqb_spec c sep) as [-> | Hne].
    + constructor; [exact Hcur | apply IH; reflexivity].
    + apply IH. rewrite contains_char_append, Hcur. cbn [contains_char orb].
      rewrite orb_false_r. apply Ascii.eqb_neq, Hne.
Qed.

Lemma str_split_spec (sep : ascii) (s : string) :
  str_join sep (str_split sep s) = s /\
  Forall (fun seg => contains_char sep seg = false) (str_split sep s).
Proof.
  split; [apply str_join_split_go | apply split_go_no_sep; reflexivity].
Qed.

(** Once the walk has left the mappings it stays at the default. *)
Lemma walk_from_none (segments : list string) :
  fold_left
    (fun d key =>
       match d with
       | VDict m => match m !! key with Some v => v | None => VNone end
       | _ => VNone
       end) segments VNone = VNone.
Proof. induction segments as [| seg segs IH]; [reflexivity | exact IH]. Qed.

Lemma deep_get_resolve (dictionary : pyval) (keys : string) :
  deep_get dictionary keys VNone
  = default VNone (resolve dictionary (str_split "." keys)).
Proof.
  unfold deep_get. generalize (str_split "." keys) as segments.
  intros segments. revert dictionary.
  induction segments as [| seg segs IH]; intros dictionary; [reflexivity |].
  cbn [fold_left resolve].
  destruct dictionary as [| | | | | | m]; try apply walk_from_none.
  destruct (m !! seg) as [child |]; [apply IH | apply walk_from_none].
Qed.

Lemma Config_dict_defaults (config : Config) (segments : list string) :
  resolve (Config_dict config) ("defaults" :: segments)
  = resolve (VDict (defaults config)) segments.
Proof.
  unfold Config_dict. cbn [resolve].
  rewrite lookup_insert_ne by discriminate.
  rewrite lookup_insert_ne by discriminate.
  rewrite lookup_insert_eq. reflexivity.
Qed.

(** C3: the lookup splits the path on the dots, walks the [defaults]
    mapping of the configuration one segment at a time, returns the value
    stored at the end of the path when every segment resolves through
    mappings, and returns [None], without raising, as soon as a segment is
    missing or the node reached is not a mapping. *)
Theorem lookup_walks_path (e : env) (config : Config) (value : string) :
  _get_config e = OK config ->
  _get_default_from_config e value
    = OK (default VNone (resolve (VDict (defaults config)) (str_split "." value)))
  /\ (forall dictionary keys,
        deep_get dictionary keys VNone
        = default VNone (resolve dictionary (str_split "." keys)))
  /\ str_join "." (str_split "." value) = value
  /\ Forall (fun seg => contains_char "." seg = false) (str_split "." value).
Proof.
  intros Hconfig. split; [| split; [apply deep_get_resolve | apply str_split_spec]].
  unfold _get_default_from_config. rewrite Hconfig. cbn [mbind result_bind].
  rewrite deep_get_resolve.
  change (str_split "." (("defaults" +:+ ".") +:+ value))
    with ("defaults" :: str_split "." value).
  rewrite Config_dict_defaults. reflexivity.
Qed.

(** ** Loading the configuration *)

(** The validator looks at the length of the key, the empty string standing
    for a missing one. *)
Lemma validate_creds_strings (creds : gmap string string) :
  validate_creds (VDict (VStr <$> creds))
  = if decide (String.length (default "" (creds !! "api_key")) = 40%nat)
    then OK (VDict (VStr <$> creds)) else Raise AssertionError.
Proof.
  unfold validate_creds, py_get. rewrite lookup_fmap.
  destruct (creds !! "api_key") as [key |];
    cbn [fmap option_fmap option_map mbind result_bind py_len];
    change (default "" (Some key)) with key || change (default "" None) with "".
  - destruct (decide _) as [H | H].
    + rewrite H. reflexivity.
    + replace (_ =? 40) with false by lia. reflexivity.
  - destruct (decide _) as [H | H]; [discriminate H | reflexivity].
Qed.

Section Pydantic.

Variable e : env.
Hypothesis str_validator_str : forall s, str_validator e (VStr s) = Some s.
Hypothesis dict_validator_dict : forall m, dict_validator e (VDict m) = Some m.

(** A mapping of strings passes the field type [Dict[str, str]]
    unchanged. *)
Lemma dict_str_str_strings (creds : gmap string string) :
  dict_str_str e (VDict (VStr <$> creds)) = OK creds.
Proof using str_validator_str dict_validator_dict.
  unfold dict_str_str. rewrite dict_validator_dict.
  rewrite bool_decide_eq_true_2.
  - f_equal. apply map_eq. intros k. rewrite lookup_omap, lookup_fmap.
    destruct (creds !! k); cbn; [apply str_validator_str | reflexivity].
  - intros k v Hk. rewrite lookup_fmap in Hk.
    destruct (creds !! k) as [s |]; [| discriminate Hk].
    injection Hk as <-. rewrite str_validator_str. eauto.
Qed.

Lemma Config_new_strings (raw : gmap string pyval) (t : string)
    (creds : gmap string string) (dflt : gmap string pyval) :
  raw !! "title" = Some (VStr t) ->
  raw !! "credentials" = Some (VDict (VStr <$> creds)) ->
  raw !! "defaults" = Some (VDict dflt) ->
  Config_new e raw
  = if decide (String.length (default "" (creds !! "api_key")) = 40%nat)
    then OK (mk_Config t creds dflt) else Raise ValidationError.
Proof using str_validator_str dict_validator_dict.
  intros Ht Hc Hd. unfold Config_new, required. rewrite Ht, Hc, Hd.
  cbn [mbind result_bind]. rewrite validate_creds_strings.
  rewrite str_validator_str, dict_validator_dict. cbn [validated].
  destruct (decide _) as [H | H]; cbn [mbind result_bind collected].
  - rewrite dict_str_str_strings. reflexivity.
  - reflexivity.
Qed.

End Pydantic.

(** C4: given a configuration file whose title is a string, whose defaults
    are a mapping and whose credentials are a mapping of strings, loading
    succeeds when the [api_key] has exactly 40 characters, and fails with
    pydantic's [ValidationError] when it is absent or has any other
    length. *)
Theorem config_api_key_length (e : env) (raw : gmap string pyval) (t : string)
    (creds : gmap string string) (dflt : gmap string pyval) :
  (forall s, str_validator e (VStr s) = Some s) ->
  (forall m, dict_validator e (VDict m) = Some m) ->
  toml_load e = OK raw ->
  raw !! "title" = Some (VStr t) ->
  raw !! "credentials" = Some (VDict (VStr <$> creds)) ->
  raw !! "defaults" = Some (VDict dflt) ->
  (forall key, creds !! "api_key" = Some key -> String.length key = 40%nat ->
     _get_config e = OK (mk_Config t creds dflt))
  /\ (creds !! "api_key" = None -> _get_config e = Raise ValidationError)
  /\ (forall key, creds !! "api_key" = Some key -> String.length key <> 40%nat ->
        _get_config e = Raise ValidationError).
Proof.
  intros Hstr Hdict Hload Ht Hc Hd.
  assert (Hrun : _get_config e
                 = if decide (String.length (default "" (creds !! "api_key")) = 40%nat)
                   then OK (mk_Config t creds dflt) else Raise ValidationError).
  { unfold _get_config. rewrite Hload. cbn [mbind result_bind].
    apply Config_new_strings; assumption. }
  split; [| split].
  - intros key Hkey Hlen. rewrite Hrun, Hkey. clear Hrun. change (default "" (Some key)) with key.
    destruct (decide _); [reflexivity | contradiction].
  - intros Hkey. rewrite Hrun, Hkey. clear Hrun. change (default "" None) with "".
    destruct (decide _) as [H | _]; [discriminate H | reflexivity].
  - intros key Hkey Hlen. rewrite Hrun, Hkey. clear Hrun. change (default "" (Some key)) with key.
    destruct (decide _); [contradiction | reflexivity].
Qed.

(** ** Building an [Invoice] *)

(** A successful construction has read all eight keys and divided the three
    prices. *)
Lemma invoice_init_ok (json : pyval) (inv : Invoice.t) :
  Invoice.__init__ json = OK inv ->
  exists m net tax gross,
    json = VDict m /\
    m !! "id" = Some (Invoice.id inv) /\
    m !! "number" = Some (Invoice.number inv) /\
    m !! "invoice_date" = Some (Invoice.invoice_date inv) /\
    m !! "sale_date" = Some (Invoice.sale_date inv) /\
    m !! "net_price" = Some net /\
    py_truediv_int net 100 = OK (Invoice.net_price inv) /\
    m !! "tax_price" = Some tax /\
    py_truediv_int tax 100 = OK (Invoice.tax_price inv) /\
    m !! "gross_price" = Some gross /\
    py_truediv_int gross 100 = OK (Invoice.gross_price inv) /\
    m !! "client_id" = Some (Invoice.client_id inv).
Proof.
  unfold Invoice.__init__. intros H.
  destruct json as [| | | | | | m]; try discriminate H.
  unfold py_getitem in H.
  destruct (m !! "id") as [v1 |] eqn:L1; [| discriminate H].
  destruct (m !! "number") as [v2 |] eqn:L2; [| discriminate H].
  destruct (m !! "invoice_date") as [v3 |] eqn:L3; [| discriminate H].
  destruct (m !! "sale_date") as [v4 |] eqn:L4; [| discriminate H].
  destruct (m !! "net_price") as [v5 |] eqn:L5; [| discriminate H].
  cbn [mbind result_bind] in H.
  destruct (py_truediv_int v5 100) as [q5 |] eqn:E5; [| discriminate H].
  destruct (m !! "tax_price") as [v6 |] eqn:L6; [| discriminate H].
  cbn [mbind result_bind] in H.
  destruct (py_truediv_int v6 100) as [q6 |] eqn:E6; [| discriminate H].
  destruct (m !! "gross_price") as [v7 |] eqn:L7; [| discriminate H].
  cbn [mbind result_bind] in H.
  destruct (py_truediv_int v7 100) as [q7 |] eqn:E7; [| discriminate H].
  destruct (m !! "client_id") as [v8 |] eqn:L8; [| discriminate H].
  cbn [mbind result_bind] in H. injection H as <-.
  exists m, v5, v6, v7. cbn. repeat split; assumption || reflexivity.
Qed.

Lemma invoice_init_first_missing (m : gmap string pyval) (k : string) :
  first_missing m = Some k -> prices_divisible m ->
  Invoice.__init__ (VDict m) = Raise (KeyError k).
Proof.
  unfold first_missing, Invoice.keys, prices_divisible. intros Hk Hdiv.
  unfold Invoice.__init__, py_getitem. cbn [find] in Hk.
  destruct (m !! "id") as [v1 |];
    [| injection Hk as <-; reflexivity]. cbn [mbind result_bind].
  destruct (m !! "number") as [v2 |];
    [| injection Hk as <-; reflexivity]. cbn [mbind result_bind].
  destruct (m !! "invoice_date") as [v3 |];
    [| injection Hk as <-; reflexivity]. cbn [mbind result_bind].
  destruct (m !! "sale_date") as [v4 |];
    [| injection Hk as <-; reflexivity]. cbn [mbind result_bind].
  destruct (m !! "net_price") as [v5 |] eqn:E5;
    [| injection Hk as <-; reflexivity]. cbn [mbind result_bind].
  destruct (Hdiv "net_price" v5) as [q5 ->]; [cbn; tauto | exact E5 |].
  cbn [mbind result_bind].
  destruct (m !! "tax_price") as [v6 |] eqn:E6;
    [| injection Hk as <-; reflexivity]. cbn [mbind result_bind].
  destruct (Hdiv "tax_price" v6) as [q6 ->]; [cbn; tauto | exact E6 |].
  cbn [mbind result_bind].
  destruct (m !! "gross_price") as [v7 |] eqn:E7;
    [| injection Hk as <-; reflexivity]. cbn [mbind result_bind].
  destruct (Hdiv "gross_price" v7) as [q7 ->]; [cbn; tauto | exact E7 |].
  cbn [mbind result_bind].
  destruct (m !! "client_id") as [v8 |];
    [| injection Hk as <-; reflexivity].
  discriminate Hk.
Qed.

(** C10, as stated, fails: when a price that is present cannot be divided
    (here a string, as the annotation [Dict[str, str]] of the constructor
    allows), the division raises [TypeError] before the lookup of a later
    missing key. *)
Lemma invoice_init_not_always_key_error :
  let json := VDict (<["id" := VInt 1]> (<["number" := VStr "1/2024"]>
                    (<["invoice_date" := VStr "2024-01-31"]>
                    (<["sale_date" := VStr "2024-01-31"]>
                    (<["net_price" := VStr "100"]> ∅))))) in
  py_getitem json "tax_price" = Raise (KeyError "tax_price") /\
  Invoice.__init__ json = Raise TypeError.
Proof. split; vm_compute; reflexivity. Qed.

(** C10 (amended): building an [Invoice] from a mapping succeeds only when
    all eight keys are present; when one is absent the constructor fails
    and no record is built. The failure is the [KeyError] of the first
    absent key in the order id, number, invoice_date, sale_date, net_price,
    tax_price, gross_price, client_id, provided the prices that are present
    can be divided by 100. *)
Theorem invoice_init_needs_all_keys (m : gmap string pyval) :
  (forall inv, Invoice.__init__ (VDict m) = OK inv ->
     Forall (fun k => is_Some (m !! k)) Invoice.keys)
  /\ (forall k, In k Invoice.keys -> m !! k = None ->
        raises (Invoice.__init__ (VDict m)))
  /\ (forall k, first_missing m = Some k -> prices_divisible m ->
        Invoice.__init__ (VDict m) = Raise (KeyError k)).
Proof.
  assert (Hok : forall inv, Invoice.__init__ (VDict m) = OK inv ->
                  Forall (fun k => is_Some (m !! k)) Invoice.keys).
  { intros inv Hinv.
    destruct (invoice_init_ok _ _ Hinv)
      as (m' & net & tax & gross & Hm & H1 & H2 & H3 & H4 & H5 & _ & H6 & _ & H7 & _ & H8).
    injection Hm as <-. unfold Invoice.keys.
    repeat (constructor; [eauto |]). constructor. }
  split; [exact Hok | split].
  - intros k Hin Hnone.
    destruct (Invoice.__init__ (VDict m)) as [inv | ex] eqn:E; [| exists ex; reflexivity].
    exfalso. specialize (Hok inv eq_refl). rewrite Forall_forall in Hok.
    destruct (Hok k) as [v Hv]; [apply list_elem_of_In, Hin |]. congruence.
  - apply invoice_init_first_missing.
Qed.

(** ** The remote operations *)

Ltac run_M :=
  cbv [mbind M_bind result_bind lift http mret M_ret].

Ltac case_results :=
  repeat match goal with
         | |- context [ match ?x with OK _ => _ | Raise _ => _ end ] =>
             destruct x; try reflexivity
         end.

(** Each operation prepares its request without touching the network,
    issues it, and then only looks at the answer. *)
Lemma create_invoice_run (e : env) (gross_price : pyval) (kw : invoice_kwargs)
    (log : list request) :
  create_invoice e gross_price kw log =
    match create_invoice_request e gross_price kw with
    | Raise ex => (Raise ex, log)
    | OK req => (create_invoice_answer (network e log req), log ++ [req])
    end.
Proof.
  unfold create_invoice, create_invoice_request, create_invoice_answer. run_M.
  case_results.
Qed.

Lemma send_invoice_run (e : env) (invoice_number : pyval) (email : option string)
    (send_copy : bool) (log : list request) :
  send_invoice e invoice_number email send_copy log =
    match send_invoice_request e invoice_number email send_copy with
    | Raise ex => (Raise ex, log)
    | OK req => (response ← network e log req; OK (ok response), log ++ [req])
    end.
Proof.
  unfold send_invoice, send_invoice_request. run_M. case_results.
  destruct (ok _); reflexivity.
Qed.

Lemma delete_invoice_run (e : env) (invoice_number : pyval) (log : list request) :
  delete_invoice e invoice_number log =
    match delete_invoice_request e invoice_number with
    | Raise ex => (Raise ex, log)
    | OK req => (response ← network e log req; OK (ok response), log ++ [req])
    end.
Proof.
  unfold delete_invoice, delete_invoice_request. run_M. case_results.
Qed.

Lemma log_not_extended (log : list request) (req : request) : log <> log ++ [req].
Proof.
  intros H. apply (f_equal (@length request)) in H.
  rewrite length_app in H. cbn in H. lia.
Qed.

Lemma get_headers_config (e : env) (headers : list (string * string)) :
  _get_headers e = OK headers -> exists config, _get_config e = OK config.
Proof.
  unfold _get_headers. destruct (_get_config e) as [config | ex]; [eauto | discriminate].
Qed.

Lemma default_from_config_returns (e : env) (config : Config) (value : string) :
  _get_config e = OK config -> returns (_get_default_from_config e value).
Proof.
  intros Hc. unfold _get_default_from_config. rewrite Hc. cbn [mbind result_bind].
  eexists. reflexivity.
Qed.

(** The fields of the creation payload. *)
Lemma invoice_payload_fields (e : env) (client_id : pyval)
    (sale_date invoice_date payment_date : string)
    (service_name gross_price_minor gtu_id : pyval) :
  exists inv service,
    payload_invoice (invoice_payload e client_id sale_date invoice_date payment_date
                       service_name gross_price_minor gtu_id) = Some inv /\
    payload_service (invoice_payload e client_id sale_date invoice_date payment_date
                       service_name gross_price_minor gtu_id) = Some service /\
    inv !! "client_id" = Some (VStr (py_str e client_id)) /\
    inv !! "payment_method" = Some (VStr "transfer") /\
    inv !! "sale_date" = Some (VStr sale_date) /\
    inv !! "invoice_date" = Some (VStr invoice_date) /\
    inv !! "payment_date" = Some (VStr payment_date) /\
    inv !! "services" = Some (VList [VDict service]) /\
    service !! "name" = Some service_name /\
    service !! "gross_price" = Some gross_price_minor /\
    service !! "tax_symbol" = Some (VInt 23) /\
    service !! "gtu_id" = Some gtu_id.
Proof.
  eexists _, _. unfold payload_service, payload_invoice, invoice_payload.
  rewrite lookup_singleton_eq. cbn [mbind option_bind].
  split; [reflexivity |].
  split; [rewrite !lookup_insert_ne by discriminate; rewrite lookup_insert_eq; reflexivity |].
  repeat split;
    (rewrite !lookup_insert_ne by discriminate; rewrite lookup_insert_eq; reflexivity)
    || (rewrite lookup_insert_eq; reflexivity).
Qed.

(** What a prepared creation request is made of. *)
Lemma create_invoice_request_ok (e : env) (gross_price : pyval) (kw : invoice_kwargs)
    (req : request) :
  create_invoice_request e gross_price kw = OK req ->
  exists service_name client_id gtu_id default_invoice_date default_payment_date
         gross_price_minor headers,
    _get_default_invoice_date (today e) = OK default_invoice_date /\
    _get_payment_date default_invoice_date (default 14 (kw_payment_days kw))
      = OK default_payment_date /\
    py_mul_int gross_price 100 = OK gross_price_minor /\
    _get_headers e = OK headers /\
    req = mk_request "POST" (API_URL +:+ "invoices.json") headers None
            (Some (invoice_payload e client_id
                     (default default_invoice_date (kw_sale_date kw))
                     (default default_invoice_date (kw_invoice_date kw))
                     (default default_payment_date (kw_payment_date kw))
                     service_name gross_price_minor gtu_id)).
Proof.
  unfold create_invoice_request. cbv zeta. intros H.
  destruct (match kw_service_name kw with Some _ => _ | None => _ end)
    as [service_name |]; [| discriminate H].
  destruct (match kw_client_id kw with Some _ => _ | None => _ end)
    as [client_id |]; [| discriminate H].
  destruct (match kw_gtu_id kw with Some _ => _ | None => _ end)
    as [gtu_id |]; [| discriminate H].
  cbn [mbind result_bind] in H.
  destruct (_get_default_invoice_date (today e)) as [did |]; [| discriminate H].
  cbn [mbind result_bind] in H.
  destruct (_get_payment_date did _) as [dpd |] eqn:Edpd; [| discriminate H].
  cbn [mbind result_bind] in H.
  destruct (py_mul_int gross_price 100) as [minor |]; [| discriminate H].
  cbn [mbind result_bind] in H.
  destruct (_get_headers e) as [headers |]; [| discriminate H].
  cbn [mbind result_bind] in H. injection H as <-.
  exists service_name, client_id, gtu_id, did, dpd, minor, headers.
  repeat split; reflexivity || assumption.
Qed.

(** A creation request is prepared whenever the configuration loads, the
    two dates can be computed and the amount can be multiplied. *)
Lemma create_invoice_request_returns (e : env) (gross_price : pyval) (kw : invoice_kwargs)
    (headers : list (string * string)) (did dpd : string) (minor : pyval) :
  _get_headers e = OK headers ->
  _get_default_invoice_date (today e) = OK did ->
  _get_payment_date did (default 14 (kw_payment_days kw)) = OK dpd ->
  py_mul_int gross_price 100 = OK minor ->
  returns (create_invoice_request e gross_price kw).
Proof.
  intros Hh Hdid Hdpd Hmul. destruct (get_headers_config e headers Hh) as [config Hc].
  unfold create_invoice_request. cbv zeta.
  assert (Hs : returns (match kw_service_name kw with
                        | Some s => OK (VStr s)
                        | None => _get_default_from_config e "invoice.service.name"
                        end)).
  { destruct (kw_service_name kw); [eexists; reflexivity |].
    eapply default_from_config_returns, Hc. }
  assert (Hcl : returns (match kw_client_id kw with
                         | Some c => OK (VInt c)
                         | None => _get_default_from_config e "invoice.client_id"
                         end)).
  { destruct (kw_client_id kw); [eexists; reflexivity |].
    eapply default_from_config_returns, Hc. }
  assert (Hg : returns (match kw_gtu_id kw with
                        | Some g => OK (VInt g)
                        | None => _get_default_from_config e "invoice.service.gtu_id"
                        end)).
  { destruct (kw_gtu_id kw); [eexists; reflexivity |].
    eapply default_from_config_returns, Hc. }
  destruct Hs as [s ->], Hcl as [c ->], Hg as [g ->]. cbn [mbind result_bind].
  rewrite Hdid. cbn [mbind result_bind]. rewrite Hdpd. cbn [mbind result_bind].
  rewrite Hmul. cbn [mbind result_bind]. rewrite Hh. cbn [mbind result_bind].
  eexists. reflexivity.
Qed.

(** A run of [create_invoice] that has issued a request has prepared it. *)
Lemma create_invoice_issued (e : env) (gross_price : pyval) (kw : invoice_kwargs)
    (log : list request) (r : result Invoice.t) (req : request) :
  create_invoice e gross_price kw log = (r, log ++ [req]) ->
  create_invoice_request e gross_price kw = OK req /\
  r = create_invoice_answer (network e log req).
Proof.
  rewrite create_invoice_run.
  destruct (create_invoice_request e gross_price kw) as [req' | ex]; intros H.
  - injection H as <- Hlog. apply app_inv_head in Hlog. injection Hlog as ->.
    split; reflexivity.
  - injection H as _ Hlog. destruct (log_not_extended _ _ Hlog).
Qed.

(** C6: in every creation request that [create_invoice] issues, the sale
    date and the invoice date are the argument given, or the computed
    default invoice date when it is left out; the payment date is the
    argument given, or the payment date computed from the default invoice
    date (not from an invoice date given by the caller) and the payment
    days, 14 when left out. The request is issued whenever the
    configuration loads with its key, the two dates can be computed and the
    amount can be multiplied. *)
Theorem create_invoice_date_fallbacks (e : env) (gross_price : pyval)
    (kw : invoice_kwargs) (log : list request) :
  (forall r req,
     create_invoice e gross_price kw log = (r, log ++ [req]) ->
     exists default_invoice_date default_payment_date payload inv,
       _get_default_invoice_date (today e) = OK default_invoice_date /\
       _get_payment_date default_invoice_date (default 14 (kw_payment_days kw))
         = OK default_payment_date /\
       req_json req = Some payload /\
       payload_invoice payload = Some inv /\
       inv !! "sale_date"
         = Some (VStr (default default_invoice_date (kw_sale_date kw))) /\
       inv !! "invoice_date"
         = Some (VStr (default default_invoice_date (kw_invoice_date kw))) /\
       inv !! "payment_date"
         = Some (VStr (default default_payment_date (kw_payment_date kw))))
  /\ (forall headers default_invoice_date default_payment_date minor,
        _get_headers e = OK headers ->
        _get_default_invoice_date (today e) = OK default_invoice_date ->
        _get_payment_date default_invoice_date (default 14 (kw_payment_days kw))
          = OK default_payment_date ->
        py_mul_int gross_price 100 = OK minor ->
        exists r req, create_invoice e gross_price kw log = (r, log ++ [req])).
Proof.
  split.
  - intros r req Hrun. apply create_invoice_issued in Hrun as [Hreq _].
    apply create_invoice_request_ok in Hreq
      as (sn & cid & gtu & did & dpd & minor & headers & Hdid & Hdpd & _ & _ & ->).
    destruct (invoice_payload_fields e cid (default did (kw_sale_date kw))
                (default did (kw_invoice_date kw)) (default dpd (kw_payment_date kw))
                sn minor gtu)
      as (inv & service & Hinv & _ & _ & _ & Hs & Hi & Hp & _).
    exists did, dpd. eexists _, inv. cbn [req_json]. repeat split; eassumption || reflexivity.
  - intros headers did dpd minor Hh Hdid Hdpd Hmul.
    destruct (create_invoice_request_returns e gross_price kw headers did dpd minor
                Hh Hdid Hdpd Hmul) as [req Hreq].
    rewrite create_invoice_run, Hreq. eauto.
Qed.

Lemma create_invoice_date_fallbacks_witness :
  exists r req,
    create_invoice (demo_env 201) (VInt 100)
      (mk_kwargs None None None (Some "2024-03-05") None None None) []
    = (r, [] ++ [req]).
Proof.
  refine (proj2 (create_invoice_date_fallbacks (demo_env 201) (VInt 100)
                   (mk_kwargs None None None (Some "2024-03-05") None None None) [])
            [("X-inFakt-ApiKey", demo_key)] "2024-02-29" "2024-03-14" (VInt 10000)
            _ _ _ _); vm_compute; reflexivity.
Defined.

(** C2: on the example of the claim the code misses the minor units. The
    amount is multiplied as a Python [float] and nothing rounds the
    product: 286.15 * 100 is 28614.999999999996, and this, not 28615, is
    what the payload of the creation request carries. *)
Lemma gross_price_286_15_not_28615 :
  py_mul_int (VFloat 286.15) 100 = OK (VFloat 28614.999999999996) /\
  VFloat 28614.999999999996 <> VFloat 28615 /\
  VFloat 28614.999999999996 <> VInt 28615 /\
  create_invoice (demo_env 201) (VFloat 286.15) no_kwargs []
    = (OK demo_invoice, [demo_creation_request (VFloat 28614.999999999996)]) /\
  exists payload service,
    req_json (demo_creation_request (VFloat 28614.999999999996)) = Some payload /\
    payload_service payload = Some service /\
    service !! "gross_price" = Some (VFloat 28614.999999999996).
Proof.
  split; [vm_compute; reflexivity |].
  split.
  { intros H.
    apply (f_equal (fun v => match v with VFloat f => PrimFloat.ltb f 28615 | _ => false end))
      in H.
    vm_compute in H. discriminate H. }
  split; [discriminate |].
  split; [vm_compute; reflexivity |].
  destruct (invoice_payload_fields (demo_env 201) (VInt 7) "2024-02-29" "2024-02-29"
              "2024-03-14" (VStr "Consulting") (VFloat 28614.999999999996) (VInt 12))
    as (inv & service & _ & Hservice & _ & _ & _ & _ & _ & _ & _ & Hgross & _).
  eexists _, service. split; [reflexivity |]. split; assumption.
Qed.

Lemma float_of_Z_100 : float_of_Z 100 = OK 100%float.
Proof. vm_compute. reflexivity. Qed.

(** The two conversions as the code computes them: the single service
    entry of every creation payload carries the Python product
    [gross_price * 100], exact for an [int] amount and the rounded double
    for a [float] amount; an [Invoice] stores each of net_price, tax_price
    and gross_price of the response divided by 100, and 28615 yields
    286.15. *)
Theorem amounts_times_100_and_over_100 (e : env) (gross_price : pyval)
    (kw : invoice_kwargs) (log : list request) :
  (forall r req,
     create_invoice e gross_price kw log = (r, log ++ [req]) ->
     exists minor payload inv service,
       py_mul_int gross_price 100 = OK minor /\
       req_json req = Some payload /\
       payload_invoice payload = Some inv /\
       inv !! "services" = Some (VList [VDict service]) /\
       service !! "gross_price" = Some minor)
  /\ (forall z, py_mul_int (VInt z) 100 = OK (VInt (z * 100)))
  /\ (forall f, py_mul_int (VFloat f) 100 = OK (VFloat (f * 100)))
  /\ py_mul_int (VFloat 286.15) 100 = OK (VFloat 28614.999999999996)
  /\ py_mul_int (VFloat 286.25) 100 = OK (VFloat 28625)
  /\ (forall json inv,
        Invoice.__init__ json = OK inv ->
        exists net tax gross,
          py_getitem json "net_price" = OK net /\
          py_truediv_int net 100 = OK (Invoice.net_price inv) /\
          py_getitem json "tax_price" = OK tax /\
          py_truediv_int tax 100 = OK (Invoice.tax_price inv) /\
          py_getitem json "gross_price" = OK gross /\
          py_truediv_int gross 100 = OK (Invoice.gross_price inv))
  /\ (forall z, py_truediv_int (VInt z) 100 = (q ← int_true_divide z 100; OK (VFloat q)))
  /\ py_truediv_int (VInt 28615) 100 = OK (VFloat 286.15).
Proof.
  split.
  { intros r req Hrun. apply create_invoice_issued in Hrun as [Hreq _].
    apply create_invoice_request_ok in Hreq
      as (sn & cid & gtu & did & dpd & minor & headers & _ & _ & Hmul & _ & ->).
    destruct (invoice_payload_fields e cid (default did (kw_sale_date kw))
                (default did (kw_invoice_date kw)) (default dpd (kw_payment_date kw))
                sn minor gtu)
      as (inv & service & Hinv & _ & _ & _ & _ & _ & _ & Hs & _ & Hg & _).
    exists minor. eexists _, inv, service. cbn [req_json].
    repeat split; eassumption || reflexivity. }
  split; [reflexivity |].
  split; [intros f; unfold py_mul_int; rewrite float_of_Z_100; reflexivity |].
  split; [vm_compute; reflexivity |].
  split; [vm_compute; reflexivity |].
  split.
  { intros json inv Hinv.
    destruct (invoice_init_ok _ _ Hinv)
      as (m & net & tax & gross & -> & _ & _ & _ & _ & Hn & Hn' & Ht & Ht' & Hg & Hg' & _).
    exists net, tax, gross. unfold py_getitem. rewrite Hn, Ht, Hg.
    repeat split; assumption. }
  split; [reflexivity | vm_compute; reflexivity].
Qed.

Lemma amounts_times_100_and_over_100_witness :
  exists minor payload inv service,
    py_mul_int (VInt 100) 100 = OK minor /\
    req_json (demo_creation_request (VInt 10000)) = Some payload /\
    payload_invoice payload = Some inv /\
    inv !! "services" = Some (VList [VDict service]) /\
    service !! "gross_price" = Some minor.
Proof.
  refine (proj1 (amounts_times_100_and_over_100 (demo_env 201) (VInt 100) no_kwargs [])
            (OK demo_invoice) (demo_creation_request (VInt 10000)) _).
  vm_compute. reflexivity.
Defined.

(** C7, as stated, fails on a status that is neither a success nor one of
    400 to 599: [raise_for_status] lets it pass. Answered with 304 or with
    600, [create_invoice] raises nothing and returns the [Invoice] built
    from the body. *)
Lemma create_invoice_returns_on_304_and_600 :
  ~ (200 <= 304 < 300) /\ ~ (200 <= 600 < 300) /\
  network (demo_env 304) [] (demo_creation_request (VInt 10000))
    = OK (mk_response 304 (OK demo_invoice_json)) /\
  create_invoice (demo_env 304) (VInt 100) no_kwargs []
    = (OK demo_invoice, [demo_creation_request (VInt 10000)]) /\
  network (demo_env 600) [] (demo_creation_request (VInt 10000))
    = OK (mk_response 600 (OK demo_invoice_json)) /\
  create_invoice (demo_env 600) (VInt 100) no_kwargs []
    = (OK demo_invoice, [demo_creation_request (VInt 10000)]).
Proof.
  split; [lia |]. split; [lia |].
  repeat split; vm_compute; reflexivity.
Qed.

(** C7 (amended): when the creation call is answered with a status from
    400 to 599 (the statuses on which [raise_for_status] raises),
    [create_invoice] raises the [HTTPError]; nothing catches it and nothing
    turns it into a boolean. On every other status, the successes among
    them, the outcome is the [Invoice] built from the body of the response;
    an [Invoice] is returned only then. *)
Theorem create_invoice_raises_on_error_status (e : env) (gross_price : pyval)
    (kw : invoice_kwargs) (log : list request) (r : result Invoice.t) (req : request)
    (resp : response) :
  create_invoice e gross_price kw log = (r, log ++ [req]) ->
  network e log req = OK resp ->
  (400 <= status_code resp < 600 -> r = Raise (HTTPError (status_code resp)))
  /\ (forall inv, r = OK inv ->
        ok resp = true /\ ~ (400 <= status_code resp < 600) /\
        exists json, resp_json resp = OK json /\ Invoice.__init__ json = OK inv)
  /\ (~ (400 <= status_code resp < 600) ->
        r = (json ← resp_json resp; Invoice.__init__ json)).
Proof.
  intros Hrun Hnet. apply create_invoice_issued in Hrun as [_ ->].
  rewrite Hnet. unfold create_invoice_answer, ok, raise_for_status.
  cbn [mbind result_bind].
  destruct ((400 <=? status_code resp) && (status_code resp <? 600))%bool eqn:E;
    cbn [mbind result_bind].
  - split; [reflexivity |]. split; [discriminate | lia].
  - split; [lia |]. split; [| reflexivity].
    intros inv Hinv. split; [reflexivity |]. split; [lia |].
    destruct (resp_json resp) as [json |]; [| discriminate Hinv].
    exists json. split; [reflexivity | exact Hinv].
Qed.

Lemma create_invoice_raises_on_error_status_witness :
  create_invoice (demo_env 201) (VInt 100) no_kwargs []
    = (OK demo_invoice, [] ++ [demo_creation_request (VInt 10000)]) /\
  network (demo_env 201) [] (demo_creation_request (VInt 10000))
    = OK (mk_response 201 (OK demo_invoice_json)) /\
  ok (mk_response 201 (OK demo_invoice_json)) = true /\
  exists json,
    resp_json (mk_response 201 (OK demo_invoice_json)) = OK json /\
    Invoice.__init__ json = OK demo_invoice.
Proof.
  assert (Hrun : create_invoice (demo_env 201) (VInt 100) no_kwargs []
                 = (OK demo_invoice, [] ++ [demo_creation_request (VInt 10000)]))
    by (vm_compute; reflexivity).
  split; [exact Hrun |]. split; [reflexivity |].
  destruct (proj1 (proj2 (create_invoice_raises_on_error_status (demo_env 201) (VInt 100)
                            no_kwargs [] (OK demo_invoice)
                            (demo_creation_request (VInt 10000))
                            (mk_response 201 (OK demo_invoice_json)) Hrun eq_refl))
              demo_invoice eq_refl) as (Hok & _ & Hjson).
  split; [exact Hok | exact Hjson].
Defined.

Lemma ok_iff (resp : response) :
  ok resp = true <-> ~ (400 <= status_code resp < 600).
Proof.
  unfold ok, raise_for_status.
  destruct ((400 <=? status_code resp) && (status_code resp <? 600))%bool eqn:E;
    split; intros H; try reflexivity; try discriminate H; lia.
Qed.

Lemma send_invoice_request_returns (e : env) (headers : list (string * string))
    (invoice_number : pyval) (email : option string) (send_copy : bool) :
  _get_headers e = OK headers ->
  exists recipient,
    send_invoice_request e invoice_number email send_copy
    = OK (mk_request "POST"
            (((API_URL +:+ "invoices/") +:+ py_str e invoice_number)
               +:+ "/deliver_via_email.json")
            headers
            (Some (VDict (<["print_type" := VStr "original"]>
                         (<["locale" := VStr "pe"]>
                         (<["recipient" := recipient]>
                         (<["send_copy" := VBool send_copy]> ∅))))))
            None).
Proof.
  intros Hh. destruct (get_headers_config e headers Hh) as [config Hc].
  unfold send_invoice_request.
  destruct email as [a |].
  - exists (VStr a). cbn [mbind result_bind]. rewrite Hh. reflexivity.
  - destruct (default_from_config_returns e config "invoice.client_email" Hc) as [v ->].
    exists v. cbn [mbind result_bind]. rewrite Hh. reflexivity.
Qed.

(** C8, as stated, fails on a status that is neither a success nor one of
    400 to 599: [response.ok] is true there. Answered with 304,
    [delete_invoice] and [send_invoice] return [True]. *)
Lemma delete_and_send_true_on_304 :
  ~ (200 <= 304 < 300) /\
  delete_invoice (demo_env 304) (VInt 55) []
    = (OK true,
       [mk_request "DELETE" (((API_URL +:+ "invoices/") +:+ "55") +:+ ".json")
          [("X-inFakt-ApiKey", demo_key)] None None]) /\
  fst (send_invoice (demo_env 304) (VInt 55) None true []) = OK true.
Proof.
  split; [lia |]. split; vm_compute; reflexivity.
Qed.

(** C8 (amended): once the configuration has loaded with its key,
    [delete_invoice] and [send_invoice] issue their request and, whatever
    the status of the response, return a boolean without raising:
    [response.ok], which is false exactly on the statuses from 400 to 599
    and true on every other status, so on every 2xx status but also below
    200, from 300 to 399 and from 600 on. *)
Theorem delete_and_send_return_ok (e : env) (headers : list (string * string))
    (invoice_number : pyval) (email : option string) (send_copy : bool)
    (log : list request) :
  _get_headers e = OK headers ->
  exists recipient,
    let delete_req :=
      mk_request "DELETE" (((API_URL +:+ "invoices/") +:+ py_str e invoice_number) +:+ ".json")
        headers None None in
    let send_req :=
      mk_request "POST"
        (((API_URL +:+ "invoices/") +:+ py_str e invoice_number) +:+ "/deliver_via_email.json")
        headers
        (Some (VDict (<["print_type" := VStr "original"]>
                     (<["locale" := VStr "pe"]>
                     (<["recipient" := recipient]>
                     (<["send_copy" := VBool send_copy]> ∅))))))
        None in
    forall resp,
      (network e log delete_req = OK resp ->
         delete_invoice e invoice_number log = (OK (ok resp), log ++ [delete_req])) /\
      (network e log send_req = OK resp ->
         send_invoice e invoice_number email send_copy log
         = (OK (ok resp), log ++ [send_req])) /\
      (ok resp = true <-> ~ (400 <= status_code resp < 600)) /\
      (200 <= status_code resp < 300 -> ok resp = true) /\
      (400 <= status_code resp < 600 -> ok resp = false).
Proof.
  intros Hh.
  destruct (send_invoice_request_returns e headers invoice_number email send_copy Hh)
    as [recipient Hsend].
  exists recipient. intros delete_req send_req resp.
  split; [| split; [| split; [| split]]].
  - intros Hnet. rewrite delete_invoice_run. unfold delete_invoice_request.
    rewrite Hh. cbn [mbind result_bind]. fold delete_req. rewrite Hnet. reflexivity.
  - intros Hnet. rewrite send_invoice_run, Hsend. fold send_req. rewrite Hnet. reflexivity.
  - apply ok_iff.
  - intros Hs. apply ok_iff. lia.
  - intros Hs. apply not_true_is_false. rewrite ok_iff. lia.
Qed.

Lemma delete_and_send_return_ok_witness :
  _get_headers (demo_env 404) = OK [("X-inFakt-ApiKey", demo_key)] /\
  delete_invoice (demo_env 404) (VInt 55) [] = (OK false, [] ++ [
    mk_request "DELETE" (((API_URL +:+ "invoices/") +:+ "55") +:+ ".json")
      [("X-inFakt-ApiKey", demo_key)] None None]).
Proof.
  assert (Hh : _get_headers (demo_env 404) = OK [("X-inFakt-ApiKey", demo_key)])
    by (vm_compute; reflexivity).
  split; [exact Hh |].
  destruct (delete_and_send_return_ok (demo_env 404) _ (VInt 55) None true [] Hh)
    as (recipient & Hall).
  destruct (Hall (mk_response 404 (OK demo_invoice_json))) as (Hdel & _).
  exact (Hdel eq_refl).
Defined.

Lemma create_and_send_invoice_run (e : env) (gross_price : pyval) (email : option string)
    (send_copy : bool) (kw : invoice_kwargs) (log : list request) :
  create_and_send_invoice e gross_price email send_copy kw log =
    match create_invoice e gross_price kw log with
    | (OK invoice, log1) => send_invoice e (Invoice.id invoice) email send_copy log1
    | (Raise ex, log1) => (Raise ex, log1)
    end.
Proof.
  unfold create_and_send_invoice. run_M.
  destruct (create_invoice e gross_price kw log) as [[invoice | ex] log1]; [| reflexivity].
  destruct (send_invoice e (Invoice.id invoice) email send_copy log1) as [[b | ex] log2];
    reflexivity.
Qed.

(** C9: [create_and_send_invoice] first runs the creation. When that
    raises, the exception is the outcome and no delivery request has been
    issued: the log holds at most the creation request. When it returns an
    invoice, the creation request is followed by the delivery request for
    the identifier of that invoice, and the outcome is the one of
    [send_invoice]: the boolean [response.ok] of the delivery. *)
Theorem create_and_send_order (e : env) (gross_price : pyval) (email : option string)
    (send_copy : bool) (kw : invoice_kwargs) (log : list request) :
  (forall ex log1,
     create_invoice e gross_price kw log = (Raise ex, log1) ->
     create_and_send_invoice e gross_price email send_copy kw log = (Raise ex, log1) /\
     (log1 = log \/
      exists create_req,
        log1 = log ++ [create_req] /\ req_url create_req = API_URL +:+ "invoices.json"))
  /\ (forall invoice log1,
        create_invoice e gross_price kw log = (OK invoice, log1) ->
        exists create_req send_req,
          log1 = log ++ [create_req] /\
          req_url create_req = API_URL +:+ "invoices.json" /\
          req_url send_req
            = ((API_URL +:+ "invoices/") +:+ py_str e (Invoice.id invoice))
                +:+ "/deliver_via_email.json" /\
          send_invoice e (Invoice.id invoice) email send_copy log1
            = (response ← network e log1 send_req; OK (ok response),
               log ++ [create_req; send_req]) /\
          create_and_send_invoice e gross_price email send_copy kw log
            = send_invoice e (Invoice.id invoice) email send_copy log1).
Proof.
  split.
  - intros ex log1 Hrun. rewrite create_and_send_invoice_run, Hrun.
    split; [reflexivity |].
    rewrite create_invoice_run in Hrun.
    destruct (create_invoice_request e gross_price kw) as [req |] eqn:Ereq.
    + right. injection Hrun as _ <-. exists req. split; [reflexivity |].
      apply create_invoice_request_ok in Ereq
        as (? & ? & ? & ? & ? & ? & ? & _ & _ & _ & _ & ->). reflexivity.
    + left. injection Hrun as _ <-. reflexivity.
  - intros invoice log1 Hrun. rewrite create_and_send_invoice_run, Hrun.
    rewrite create_invoice_run in Hrun.
    destruct (create_invoice_request e gross_price kw) as [req |] eqn:Ereq;
      [| discriminate Hrun].
    injection Hrun as _ <-.
    apply create_invoice_request_ok in Ereq
      as (? & ? & ? & ? & ? & ? & headers & _ & _ & _ & Hh & ->).
    destruct (send_invoice_request_returns e headers (Invoice.id invoice) email send_copy Hh)
      as [recipient Hsend].
    eexists _, _. split; [reflexivity |]. split; [reflexivity |].
    split; [| split; [| reflexivity]].
    2: { rewrite send_invoice_run, Hsend. rewrite <- app_assoc. reflexivity. }
    reflexivity.
Qed.

Lemma create_and_send_order_witness :
  create_invoice (demo_env 404) (VInt 100) no_kwargs []
    = (Raise (HTTPError 404), [demo_creation_request (VInt 10000)]) /\
  create_and_send_invoice (demo_env 404) (VInt 100) None true no_kwargs []
    = (Raise (HTTPError 404), [demo_creation_request (VInt 10000)]).
Proof.
  assert (Hrun : create_invoice (demo_env 404) (VInt 100) no_kwargs []
                 = (Raise (HTTPError 404), [demo_creation_request (VInt 10000)]))
    by (vm_compute; reflexivity).
  split; [exact Hrun |].
  exact (proj1 (proj1 (create_and_send_order (demo_env 404) (VInt 100) None true
                         no_kwargs []) _ _ Hrun)).
Defined.

(** ** The statements on the example environment *)

Lemma lookup_walks_path_witness :
  _get_config (demo_env 201) = OK demo_config /\
  _get_default_from_config (demo_env 201) "invoice.service.name" = OK (VStr "Consulting") /\
  _get_default_from_config (demo_env 201) "invoice.service.name.first" = OK VNone /\
  _get_default_from_config (demo_env 201) "invoice.client" = OK VNone.
Proof.
  assert (Hc : _get_config (demo_env 201) = OK demo_config) by (vm_compute; reflexivity).
  split; [exact Hc |].
  rewrite (proj1 (lookup_walks_path _ _ "invoice.service.name" Hc)).
  rewrite (proj1 (lookup_walks_path _ _ "invoice.service.name.first" Hc)).
  rewrite (proj1 (lookup_walks_path _ _ "invoice.client" Hc)).
  repeat split; vm_compute; reflexivity.
Defined.

Lemma config_api_key_length_witness :
  toml_load (demo_env 201) = OK demo_file /\
  demo_file !! "credentials" = Some (VDict (VStr <$> {[ "api_key" := demo_key ]})) /\
  String.length demo_key = 40%nat /\
  _get_config (demo_env 201) = OK demo_config.
Proof.
  assert (Hcreds : demo_file !! "credentials"
                   = Some (VDict (VStr <$> {[ "api_key" := demo_key ]})))
    by (vm_compute; reflexivity).
  split; [reflexivity |]. split; [exact Hcreds |]. split; [reflexivity |].
  refine (proj1 (config_api_key_length (demo_env 201) demo_file "demo"
                   {[ "api_key" := demo_key ]} demo_defaults _ _ _ _ Hcreds _) demo_key _ _);
    try (intros; reflexivity); vm_compute; reflexivity.
Defined.

Lemma invoice_init_needs_all_keys_witness :
  first_missing {[ "id" := VInt 1 ]} = Some "number" /\
  prices_divisible {[ "id" := VInt 1 ]} /\
  Invoice.__init__ (VDict {[ "id" := VInt 1 ]}) = Raise (KeyError "number").
Proof.
  assert (Hfirst : first_missing {[ "id" := VInt 1 ]} = Some "number")
    by (vm_compute; reflexivity).
  assert (Hdiv : prices_divisible {[ "id" := VInt 1 ]}).
  { intros k v [<- | [<- | [<- | []]]] H; vm_compute in H; discriminate H. }
  split; [exact Hfirst |]. split; [exact Hdiv |].
  exact (proj2 (proj2 (invoice_init_needs_all_keys {[ "id" := VInt 1 ]})) _ Hfirst Hdiv).
Defined.

(** ** Further runs of the date functions *)

Example default_invoice_date_on_the_15th :
  _get_default_invoice_date (mk_date 2024 3 15) = OK "2024-03-31" /\
  _get_default_invoice_date (mk_date 2024 1 15) = OK "2024-01-31" /\
  _get_default_invoice_date (mk_date 2024 1 14) = OK "2023-12-31" /\
  _get_default_invoice_date (mk_date 2023 3 14) = OK "2023-02-28" /\
  _get_default_invoice_date (mk_date 2024 2 1) = OK "2024-01-31".
Proof. repeat split; vm_compute; reflexivity. Qed.

Example payment_date_runs :
  _get_payment_date "2023-12-25" 14 = OK "2024-01-08" /\
  _get_payment_date "2024-02-29" 14 = OK "2024-03-14" /\
  _get_payment_date "2024-03-01" (-1) = OK "2024-02-29" /\
  _get_payment_date "2100-02-28" 1 = OK "2100-03-01" /\
  _get_payment_date "2024-02-30" 14 = Raise ValueError /\
  _get_payment_date "999-03-31" 14 = Raise ValueError /\
  _get_payment_date "2024-01-31" 1000000000 = Raise OverflowError.
Proof. repeat split; vm_compute; reflexivity. Qed.

Example module_body_run :
  module_body (demo_env 201) []
  = (OK true,
     [demo_creation_request (VInt 2861500);
      mk_request "POST"
        (((API_URL +:+ "invoices/") +:+ "55") +:+ "/deliver_via_email.json")
        [("X-inFakt-ApiKey", demo_key)]
        (Some (VDict (<["print_type" := VStr "original"]>
                     (<["locale" := VStr "pe"]>
                     (<["recipient" := VStr "client@example.com"]>
                     (<["send_copy" := VBool true]> ∅))))))
        None]).
Proof. vm_compute. reflexivity. Qed.

(** * Further properties of the code

    ** The credentials validator and the loading of the configuration *)

Lemma py_len_40_shape (v : pyval) :
  py_len v = OK 40 ->
  (exists s, v = VStr s /\ String.length s = 40%nat) \/
  (exists l, v = VList l) \/ (exists m, v = VDict m).
Proof.
  destruct v; cbn; intros H; try discriminate H.
  - left. eexists. split; [reflexivity |]. injection H as H. lia.
  - right. left. eauto.
  - right. right. eauto.
Qed.

Lemma validate_creds_ok (creds creds' : pyval) :
  validate_creds creds = OK creds' <->
  creds' = creds /\
  exists m v, creds = VDict m /\ m !! "api_key" = Some v /\ py_len v = OK 40.
Proof.
  unfold validate_creds, py_get. split.
  - destruct creds as [| | | | | | m]; try discriminate.
    destruct (m !! "api_key") as [v |] eqn:Ev; cbn [mbind result_bind].
    + destruct (py_len v) as [n |] eqn:En; [| discriminate].
      cbn [mbind result_bind]. destruct (Z.eqb_spec n 40) as [-> | Hn]; [| discriminate].
      intros H. injection H as <-. split; [reflexivity |]. eauto.
    + discriminate.
  - intros [-> (m & v & -> & Hv & Hlen)]. rewrite Hv. cbn [mbind result_bind].
    rewrite Hlen. reflexivity.
Qed.

Lemma validate_creds_not_mapping (creds : pyval) :
  (forall m, creds <> VDict m) -> validate_creds creds = Raise AttributeError.
Proof.
  intros Hnot. unfold validate_creds, py_get.
  destruct creds as [| | | | | | m]; try reflexivity. destruct (Hnot m eq_refl).
Qed.

(** X1: [validate_creds] accepts a value exactly when it is a mapping whose
    "api_key" entry has a [len] of 40 (a string of 40 characters, but also a
    list or a mapping of 40 items), and then returns it unchanged; on a value
    that is not a mapping the call of [get] raises [AttributeError]. *)
Theorem validate_creds_outcomes (creds : pyval) :
  (forall creds',
     validate_creds creds = OK creds' <->
     creds' = creds /\
     exists m v, creds = VDict m /\ m !! "api_key" = Some v /\ py_len v = OK 40)
  /\ ((forall m, creds <> VDict m) -> validate_creds creds = Raise AttributeError).
Proof.
  split; [intros creds'; apply validate_creds_ok | apply validate_creds_not_mapping].
Qed.

Lemma validate_creds_outcomes_witness :
  validate_creds (VDict {[ "api_key" := VList (replicate 40 VNone) ]})
  = OK (VDict {[ "api_key" := VList (replicate 40 VNone) ]}).
Proof.
  apply (proj1 (validate_creds_outcomes _)). split; [reflexivity |].
  eexists _, _. split; [reflexivity |]. split; vm_compute; reflexivity.
Defined.

(** What a successful construction of [Config] has checked. *)
Lemma Config_new_ok (e : env) (raw : gmap string pyval) (config : Config) :
  Config_new e raw = OK config ->
  exists t c d,
    raw !! "title" = Some t /\ str_validator e t = Some (title config) /\
    raw !! "credentials" = Some c /\ validate_creds c = OK c /\
    dict_str_str e c = OK (credentials config) /\
    raw !! "defaults" = Some d /\ dict_validator e d = Some (defaults config).
Proof.
  unfold Config_new, required. intros H.
  destruct (raw !! "credentials") as [c |]; [| discriminate H].
  cbn [mbind result_bind] in H.
  destruct (validate_creds c) as [c' | ex] eqn:Ec;
    [| cbn [mbind result_bind] in H; destruct (collected ex); discriminate H].
  apply validate_creds_ok in Ec as Ec'. destruct Ec' as [-> _].
  cbn [mbind result_bind] in H.
  destruct (dict_str_str e c) as [cs | ex] eqn:Ed;
    [| destruct (collected ex); discriminate H].
  destruct (raw !! "title") as [t |]; [| discriminate H].
  cbn [mbind result_bind] in H.
  destruct (str_validator e t) as [ts |] eqn:Et; [| discriminate H].
  destruct (raw !! "defaults") as [d |]; [| discriminate H].
  cbn [mbind result_bind validated] in H.
  destruct (dict_validator e d) as [ds |] eqn:Edd; [| discriminate H].
  injection H as <-. exists t, c, d. cbn. repeat split; assumption || reflexivity.
Qed.

(** X2: the configuration loads only from a file that has a title, a
    defaults entry and a credentials mapping whose "api_key" has a [len] of
    40, whatever pydantic's coercions do; and when the credentials entry is
    not a mapping, loading fails with the [AttributeError] of the validator,
    not with a validation error. *)
Theorem get_config_needs_valid_key (e : env) :
  (forall config,
     _get_config e = OK config ->
     exists raw m v,
       toml_load e = OK raw /\
       raw !! "credentials" = Some (VDict m) /\
       m !! "api_key" = Some v /\ py_len v = OK 40 /\
       is_Some (raw !! "title") /\ is_Some (raw !! "defaults"))
  /\ (forall raw c,
        toml_load e = OK raw -> raw !! "credentials" = Some c ->
        (forall m, c <> VDict m) ->
        _get_config e = Raise AttributeError).
Proof.
  split.
  - intros config H. unfold _get_config in H.
    destruct (toml_load e) as [raw |]; [| discriminate H].
    cbn [mbind result_bind] in H.
    apply Config_new_ok in H as (t & c & d & Ht & _ & Hc & Hv & _ & Hd & _).
    apply validate_creds_ok in Hv as [_ (m & v & -> & Hk & Hlen)].
    exists raw, m, v. repeat split; eauto.
  - intros raw c Hload Hc Hnot. unfold _get_config. rewrite Hload.
    cbn [mbind result_bind]. unfold Config_new, required. rewrite Hc.
    cbn [mbind result_bind].
    rewrite (validate_creds_not_mapping c Hnot). reflexivity.
Qed.

Lemma get_config_needs_valid_key_witness :
  _get_config (mk_env (mk_date 2024 3 10)
                 (OK (<["credentials" := VStr demo_key]> demo_file))
                 (str_validator (demo_env 201)) (dict_validator (demo_env 201))
                 (repr_other (demo_env 201)) (network (demo_env 201)))
  = Raise AttributeError.
Proof.
  refine (proj2 (get_config_needs_valid_key
                   (mk_env (mk_date 2024 3 10)
                      (OK (<["credentials" := VStr demo_key]> demo_file))
                      (str_validator (demo_env 201)) (dict_validator (demo_env 201))
                      (repr_other (demo_env 201)) (network (demo_env 201))))
            (<["credentials" := VStr demo_key]> demo_file) (VStr demo_key) eq_refl _ _).
  - vm_compute. reflexivity.
  - discriminate.
Defined.

(** X3: when pydantic keeps strings and mappings as they are and coerces
    no list or mapping to a string, the only header that [_get_headers]
    builds is the API key, and that key has exactly 40 characters. *)
Theorem get_headers_key_length (e : env) (headers : list (string * string)) :
  (forall s, str_validator e (VStr s) = Some s) ->
  (forall l, str_validator e (VList l) = None) ->
  (forall m, str_validator e (VDict m) = None) ->
  (forall m, dict_validator e (VDict m) = Some m) ->
  _get_headers e = OK headers ->
  exists key, headers = [("X-inFakt-ApiKey", key)] /\ String.length key = 40%nat.
Proof.
  intros Hstr Hlist Hdict Hmap H. unfold _get_headers in H.
  destruct (_get_config e) as [config |] eqn:Ec; [| discriminate H].
  cbn [mbind result_bind] in H.
  unfold _get_config in Ec. destruct (toml_load e) as [raw |]; [| discriminate Ec].
  cbn [mbind result_bind] in Ec.
  apply Config_new_ok in Ec as (t & c & d & _ & _ & _ & Hv & Hcs & _).
  apply validate_creds_ok in Hv as [_ (m & v & -> & Hk & Hlen)].
  unfold dict_str_str in Hcs. rewrite Hmap in Hcs.
  destruct (bool_decide _) eqn:Eall; [| discriminate Hcs].
  injection Hcs as Hcs. rewrite <- Hcs in H. rewrite lookup_omap, Hk in H.
  cbn [mbind option_bind] in H.
  destruct (py_len_40_shape v Hlen) as [(s & -> & Hs) | [(l & ->) | (m' & ->)]].
  - rewrite Hstr in H. injection H as <-. eauto.
  - rewrite Hlist in H. discriminate H.
  - rewrite Hdict in H. discriminate H.
Qed.

Lemma get_headers_key_length_witness :
  _get_headers (demo_env 201) = OK [("X-inFakt-ApiKey", demo_key)] /\
  exists key,
    [("X-inFakt-ApiKey", demo_key)] = [("X-inFakt-ApiKey", key)] /\
    String.length key = 40%nat.
Proof.
  assert (H : _get_headers (demo_env 201) = OK [("X-inFakt-ApiKey", demo_key)])
    by (vm_compute; reflexivity).
  split; [exact H |].
  apply (get_headers_key_length (demo_env 201) _); try (intros; reflexivity).
Defined.

(** ** More on the dotted-path lookup *)

Lemma str_split_cons (s : string) :
  exists seg segs,
    str_split "." s = seg :: segs /\ contains_char "." seg = false.
Proof.
  destruct (split_go_cons "." s "") as (seg & segs & Hs).
  exists seg, segs. split; [exact Hs |].
  pose proof (split_go_no_sep "." s "" eq_refl) as Hall.
  unfold str_split in *. rewrite Hs in Hall. inversion Hall; assumption.
Qed.

(** A segment without dot, followed by a dot, is split off. *)
Lemma split_go_prefix (seg rest cur : string) :
  contains_char "." seg = false ->
  split_go "." (seg +:+ String "." rest) cur = (cur +:+ seg) :: split_go "." rest "".
Proof.
  revert cur. induction seg as [| c seg IH]; intros cur Hseg.
  - change ("" +:+ String "." rest) with (String "." rest). cbn [split_go].
    rewrite string_append_empty_r. reflexivity.
  - change (String c seg +:+ String "." rest) with (String c (seg +:+ String "." rest)).
    cbn [contains_char] in Hseg. apply orb_false_elim in Hseg as [Hc Hseg].
    cbn [split_go]. rewrite Hc. rewrite IH by exact Hseg.
    rewrite string_append_assoc. reflexivity.
Qed.

Lemma str_split_prefix (seg rest : string) :
  contains_char "." seg = false ->
  str_split "." (seg +:+ String "." rest) = seg :: str_split "." rest.
Proof. intros H. unfold str_split. rewrite split_go_prefix by exact H. reflexivity. Qed.

Lemma walk_from_default (default : pyval) (segments : list string) :
  (forall m, default <> VDict m) ->
  fold_left
    (fun d key =>
       match d with
       | VDict m => match m !! key with Some v => v | None => default end
       | _ => default
       end) segments default = default.
Proof.
  intros Hd. induction segments as [| seg segs IH]; [reflexivity |].
  cbn [fold_left]. destruct default; try exact IH. destruct (Hd m eq_refl).
Qed.

(** X4: for every default that is not itself a mapping, [deep_get] returns
    the value at the end of the path when every segment resolves through
    mappings and the default otherwise. A default that is a mapping is
    walked into: when the first segment is missing, the rest of the path is
    looked up in the default. *)
Theorem deep_get_default (dictionary default : pyval) (keys : string) :
  ((forall m, default <> VDict m) ->
   deep_get dictionary keys default
   = from_option id default (resolve dictionary (str_split "." keys)))
  /\ (forall m dm seg rest,
        dictionary = VDict m -> default = VDict dm ->
        contains_char "." seg = false -> m !! seg = None ->
        deep_get dictionary (seg +:+ String "." rest) default
        = deep_get default rest default).
Proof.
  split.
  - intros Hd. unfold deep_get. generalize (str_split "." keys) as segments.
    intros segments. revert dictionary.
    induction segments as [| seg segs IH]; intros dictionary; [reflexivity |].
    cbn [fold_left resolve].
    destruct dictionary as [| | | | | | m]; try (apply walk_from_default, Hd).
    destruct (m !! seg) as [child |]; [apply IH | apply walk_from_default, Hd].
  - intros m dm seg rest -> -> Hseg Hm. unfold deep_get.
    rewrite str_split_prefix by exact Hseg. cbn [fold_left]. rewrite Hm. reflexivity.
Qed.

Lemma deep_get_default_witness :
  deep_get (VDict ∅) "a.b" (VDict {[ "b" := VInt 1 ]}) = VInt 1.
Proof.
  rewrite (proj2 (deep_get_default (VDict ∅) (VDict {[ "b" := VInt 1 ]}) "a.b")
             ∅ {[ "b" := VInt 1 ]} "a" "b" eq_refl eq_refl eq_refl (lookup_empty "a")).
  vm_compute. reflexivity.
Defined.

Lemma resolve_insert_dotted (m : gmap string pyval) (k : string) (v : pyval)
    (segments : list string) (seg : string) (segs : list string) :
  contains_char "." k = true ->
  segments = seg :: segs -> contains_char "." seg = false ->
  resolve (VDict (<[k := v]> m)) segments = resolve (VDict m) segments.
Proof.
  intros Hk -> Hseg. cbn [resolve].
  rewrite lookup_insert_ne; [reflexivity |]. intros ->. congruence.
Qed.

(** X5: a default stored under a key that contains a dot can never be read:
    adding (or changing) such an entry of the defaults changes the result
    of no lookup. *)
Theorem dotted_key_is_never_read (t : string) (c : gmap string string)
    (d : gmap string pyval) (k : string) (v : pyval) (value : string) :
  contains_char "." k = true ->
  deep_get (Config_dict (mk_Config t c (<[k := v]> d))) (("defaults" +:+ ".") +:+ value) VNone
  = deep_get (Config_dict (mk_Config t c d)) (("defaults" +:+ ".") +:+ value) VNone.
Proof.
  intros Hk. rewrite !deep_get_resolve.
  change (str_split "." (("defaults" +:+ ".") +:+ value))
    with ("defaults" :: str_split "." value).
  rewrite !Config_dict_defaults. cbn [defaults].
  destruct (str_split_cons value) as (seg & segs & Hs & Hseg).
  rewrite (resolve_insert_dotted d k v _ seg segs Hk Hs Hseg). reflexivity.
Qed.

Lemma dotted_key_is_never_read_witness :
  contains_char "." "invoice.client_id" = true /\
  deep_get (Config_dict (mk_Config "demo" ∅ (<["invoice.client_id" := VInt 7]> ∅)))
    (("defaults" +:+ ".") +:+ "invoice.client_id") VNone = VNone.
Proof.
  split; [reflexivity |].
  rewrite (dotted_key_is_never_read "demo" ∅ ∅ "invoice.client_id" (VInt 7)
             "invoice.client_id" eq_refl).
  vm_compute. reflexivity.
Defined.

(** ** More on [Invoice] *)

Lemma py_truediv_int_float (v r : pyval) (k : Z) :
  py_truediv_int v k = OK r -> exists f, r = VFloat f.
Proof.
  unfold py_truediv_int. destruct v as [| b | z | f | | |]; try discriminate.
  - destruct (int_true_divide (Z_of_bool b) k) as [q |]; [| discriminate].
    cbn [mbind result_bind]. intros H. injection H as <-. eexists. reflexivity.
  - destruct (int_true_divide z k) as [q |]; [| discriminate].
    cbn [mbind result_bind]. intros H. injection H as <-. eexists. reflexivity.
  - destruct (k =? 0); [discriminate |].
    destruct (float_of_Z k) as [k' |]; [| discriminate].
    cbn [mbind result_bind]. intros H. injection H as <-. eexists. reflexivity.
Qed.

(** X6: an [Invoice] that has been built holds the four non-price entries
    and the client id of the response unchanged, and its three prices are
    floats, whatever numbers (integers, booleans or floats) the response
    carried. A body that is not a mapping raises [TypeError]. *)
Theorem invoice_prices_are_floats (json : pyval) :
  (forall inv,
     Invoice.__init__ json = OK inv ->
     py_getitem json "id" = OK (Invoice.id inv) /\
     py_getitem json "number" = OK (Invoice.number inv) /\
     py_getitem json "invoice_date" = OK (Invoice.invoice_date inv) /\
     py_getitem json "sale_date" = OK (Invoice.sale_date inv) /\
     py_getitem json "client_id" = OK (Invoice.client_id inv) /\
     exists net tax gross,
       Invoice.net_price inv = VFloat net /\
       Invoice.tax_price inv = VFloat tax /\
       Invoice.gross_price inv = VFloat gross)
  /\ ((forall m, json <> VDict m) -> Invoice.__init__ json = Raise TypeError).
Proof.
  split.
  - intros inv Hinv.
    destruct (invoice_init_ok _ _ Hinv)
      as (m & n & t & g & -> & H1 & H2 & H3 & H4 & _ & Hn & _ & Ht & _ & Hg & H8).
    unfold py_getitem. rewrite H1, H2, H3, H4, H8.
    repeat (split; [reflexivity |]).
    destruct (py_truediv_int_float _ _ _ Hn) as [fn Hfn].
    destruct (py_truediv_int_float _ _ _ Ht) as [ft Hft].
    destruct (py_truediv_int_float _ _ _ Hg) as [fg Hfg].
    exists fn, ft, fg. repeat split; assumption.
  - intros Hnot. destruct json as [| | | | | | m]; try reflexivity.
    destruct (Hnot m eq_refl).
Qed.

Lemma invoice_prices_are_floats_witness :
  Invoice.__init__ demo_invoice_json = OK demo_invoice /\
  exists net tax gross,
    Invoice.net_price demo_invoice = VFloat net /\
    Invoice.tax_price demo_invoice = VFloat tax /\
    Invoice.gross_price demo_invoice = VFloat gross.
Proof.
  assert (H : Invoice.__init__ demo_invoice_json = OK demo_invoice)
    by (vm_compute; reflexivity).
  split; [exact H |].
  apply (proj1 (invoice_prices_are_floats demo_invoice_json) demo_invoice H).
Defined.

(** X7: [Invoice.__init__] reads the eight keys and nothing else: two
    mappings that agree on them give the same outcome, so every other entry
    of a response is dropped. *)
Theorem invoice_init_reads_eight_keys (m1 m2 : gmap string pyval) :
  (forall k, In k Invoice.keys -> m1 !! k = m2 !! k) ->
  Invoice.__init__ (VDict m1) = Invoice.__init__ (VDict m2).
Proof.
  intros H. unfold Invoice.__init__, py_getitem.
  rewrite (H "id"), (H "number"), (H "invoice_date"), (H "sale_date"),
    (H "net_price"), (H "tax_price"), (H "gross_price"), (H "client_id");
    reflexivity || (cbn; tauto).
Qed.

Lemma invoice_init_reads_eight_keys_witness :
  Invoice.__init__ (VDict (<["status" := VStr "draft"]> ∅)) = Invoice.__init__ (VDict ∅).
Proof.
  apply invoice_init_reads_eight_keys. intros k Hk.
  rewrite lookup_insert_ne; [reflexivity |].
  cbn in Hk. intros <-.
  repeat (destruct Hk as [Hk | Hk]; [discriminate Hk |]). exact Hk.
Defined.

(** ** More on the two date functions *)

Lemma payment_date_value (d : date) (n : Z) :
  valid_date d -> -999999999 <= n <= 999999999 ->
  MINYEAR <= year (shift_days d n) <= MAXYEAR ->
  _get_payment_date (isoformat d) n = OK (format_ymd (shift_days d n)).
Proof.
  intros Hv Hn Hy. pose proof Hv as Hv'. apply valid_date_iff in Hv' as [_ Hmd].
  unfold _get_payment_date. rewrite strptime_isoformat by exact Hv.
  cbn [mbind result_bind]. unfold timedelta_days.
  replace (_ && _)%bool with true by lia. cbn [mbind result_bind].
  rewrite date_add_shift by exact Hmd.
  destruct (decide _) as [_ | Hno]; [reflexivity | contradiction].
Qed.

Lemma shift_days_add (d : date) (a b : Z) :
  md_valid d -> shift_days (shift_days d a) b = shift_days d (a + b).
Proof.
  intros Hmd. destruct (toordinal_shift_days d a Hmd) as [Hmd' Ho].
  rewrite <- (_ord2ymd_shift (shift_days d a) b Hmd').
  rewrite <- (_ord2ymd_shift d (a + b) Hmd). f_equal. lia.
Qed.

Lemma valid_date_shift (d : date) (n : Z) :
  md_valid d -> MINYEAR <= year (shift_days d n) <= MAXYEAR ->
  valid_date (shift_days d n).
Proof.
  intros Hmd Hy. apply valid_date_iff. split; [exact Hy |].
  apply toordinal_shift_days, Hmd.
Qed.

(** X8: payment terms add up. For a date written YYYY-MM-DD, the payment
    date for [a] days, taken again as invoice date with [b] days, is the
    payment date for [a + b] days, as long as the intermediate date has a
    four-digit year and both stay in range; in particular taking the same
    number of days back returns the invoice date that was given. *)
Theorem payment_date_additive (d : date) (a b : Z) :
  valid_date d ->
  -999999999 <= a <= 999999999 -> -999999999 <= b <= 999999999 ->
  1000 <= year (shift_days d a) <= MAXYEAR ->
  exists s1,
    _get_payment_date (isoformat d) a = OK s1 /\
    (MINYEAR <= year (shift_days d (a + b)) <= MAXYEAR ->
       _get_payment_date s1 b = OK (format_ymd (shift_days d (a + b)))) /\
    (1000 <= year d -> _get_payment_date s1 (- a) = OK (isoformat d)).
Proof.
  intros Hv Ha Hb Hy1. pose proof Hv as Hv'. apply valid_date_iff in Hv' as [Hy Hmd].
  unfold MINYEAR, MAXYEAR in *.
  assert (Hv1 : valid_date (shift_days d a))
    by (apply valid_date_shift; [exact Hmd | unfold MINYEAR, MAXYEAR; lia]).
  exists (format_ymd (shift_days d a)).
  split; [apply payment_date_value; [exact Hv | exact Ha | unfold MINYEAR, MAXYEAR; lia] |].
  rewrite format_ymd_isoformat by lia.
  split.
  - intros Hy2. rewrite payment_date_value; [| exact Hv1 | exact Hb |].
    + rewrite shift_days_add by exact Hmd. reflexivity.
    + rewrite shift_days_add by exact Hmd. exact Hy2.
  - intros Hy0.
    assert (Hback : shift_days (shift_days d a) (- a) = d).
    { rewrite shift_days_add by exact Hmd. replace (a + - a) with 0 by lia. reflexivity. }
    rewrite payment_date_value; [| exact Hv1 | lia |].
    + rewrite Hback. f_equal. apply format_ymd_isoformat. lia.
    + rewrite Hback. unfold MINYEAR, MAXYEAR. lia.
Qed.

Lemma payment_date_additive_witness :
  valid_date (mk_date 2024 1 31) /\
  exists s1,
    _get_payment_date (isoformat (mk_date 2024 1 31)) 14 = OK s1 /\
    _get_payment_date s1 (- (14)) = OK (isoformat (mk_date 2024 1 31)).
Proof.
  split; [reflexivity |].
  destruct (payment_date_additive (mk_date 2024 1 31) 14 0 eq_refl) as (s1 & H1 & _ & H3);
    [lia | lia | vm_compute; split; discriminate |].
  exists s1. split; [exact H1 |]. apply H3. cbn. lia.
Defined.

Lemma strptime_ymd_valid (s : string) (d : date) :
  strptime_ymd s = OK d -> valid_date d.
Proof.
  unfold strptime_ymd, date_new.
  destruct (match_ymd s) as [| [[[y m] dd] [| c rest]] l]; try discriminate.
  destruct (valid_dateb (mk_date y m dd)) eqn:E; [| discriminate].
  intros H. injection H as <-. exact E.
Qed.

(** X9: whatever string and number of days [_get_payment_date] is given,
    a result that it returns is the rendering of an existing calendar date
    of the years 1 to 9999: the date parsed from the string, moved by the
    number of days. *)
Theorem payment_date_result_is_a_date (invoice_date : string) (payment_days : Z)
    (result : string) :
  _get_payment_date invoice_date payment_days = OK result ->
  exists d,
    strptime_ymd invoice_date = OK d /\ valid_date d /\
    valid_date (shift_days d payment_days) /\
    result = format_ymd (shift_days d payment_days).
Proof.
  unfold _get_payment_date. intros H.
  destruct (strptime_ymd invoice_date) as [d |] eqn:Ep; [| discriminate H].
  cbn [mbind result_bind] in H. pose proof (strptime_ymd_valid _ _ Ep) as Hv.
  pose proof Hv as Hv'. apply valid_date_iff in Hv' as [_ Hmd].
  unfold timedelta_days in H.
  destruct (_ && _)%bool; [| discriminate H]. cbn [mbind result_bind] in H.
  rewrite date_add_shift in H by exact Hmd.
  destruct (decide _) as [Hy | _]; [| discriminate H].
  cbn [mbind result_bind] in H. injection H as <-.
  exists d. split; [reflexivity |]. split; [exact Hv |].
  split; [apply valid_date_shift; assumption | reflexivity].
Qed.

Lemma payment_date_result_is_a_date_witness :
  _get_payment_date "2024-1-5" 30 = OK "2024-02-04" /\
  exists d,
    strptime_ymd "2024-1-5" = OK d /\ valid_date d /\
    valid_date (shift_days d 30) /\ "2024-02-04" = format_ymd (shift_days d 30).
Proof.
  assert (H : _get_payment_date "2024-1-5" 30 = OK "2024-02-04")
    by (vm_compute; reflexivity).
  split; [exact H |]. exact (payment_date_result_is_a_date _ _ _ H).
Defined.

Lemma last_day_of_month_ge_28 (y m : Z) : 28 <= last_day_of_month y m.
Proof.
  unfold last_day_of_month.
  destruct m as [| p | p]; try lia.
  destruct (gregorian_leap y);
    repeat (destruct p as [p | p |]; try lia).
Qed.

Lemma iter_next_day_in_month (y m d : Z) (k : nat) :
  d + Z.of_nat k <= 28 ->
  Nat.iter k next_day (mk_date y m d) = mk_date y m (d + Z.of_nat k).
Proof.
  induction k as [| k IH]; intros Hk.
  - cbn [Nat.iter nat_rect]. f_equal. lia.
  - change (Nat.iter (S k) next_day (mk_date y m d))
      with (next_day (Nat.iter k next_day (mk_date y m d))).
    rewrite IH by lia. unfold next_day. cbn [year month day].
    pose proof (last_day_of_month_ge_28 y m).
    replace (_ <? _) with true by lia. f_equal. lia.
Qed.

Lemma iter_succ_r {A} (f : A -> A) (k : nat) (x : A) :
  Nat.iter (S k) f x = Nat.iter k f (f x).
Proof.
  induction k as [| k IH]; [reflexivity |].
  change (Nat.iter (S (S k)) f x) with (f (Nat.iter (S k) f x)).
  rewrite IH. reflexivity.
Qed.

(** X10: the default payment date falls in the month after the target month
    of the default invoice date. For payment days [n] from 1 to 28, in
    particular for the default of 14, the payment date computed from the
    default invoice date is the [n]-th of the following month, provided
    the target year has four digits and the following month is not past
    the year 9999. *)
Theorem default_payment_date_in_following_month (today : date) (n : Z) :
  valid_date today ->
  let y := fst (target_month today) in
  let m := snd (target_month today) in
  let y' := fst (following_month y m) in
  let m' := snd (following_month y m) in
  1000 <= y -> y' <= 9999 -> 1 <= n <= 28 ->
  exists default_invoice_date,
    _get_default_invoice_date today = OK default_invoice_date /\
    _get_payment_date default_invoice_date n = OK (isoformat (mk_date y' m' n)).
Proof.
  intros Hv y m y' m' Hy Hy' Hn.
  pose proof (target_month_range today Hv) as [Hyr Hm]. fold y in Hyr. fold m in Hm.
  set (last := mk_date y m (last_day_of_month y m)).
  assert (Hmd : md_valid last).
  { unfold last. split; cbn [year month day]; [exact Hm |].
    rewrite last_day_of_month_eq by exact Hm.
    pose proof (days_in_month_ge_28 y m Hm). lia. }
  assert (Hvl : valid_date last).
  { apply valid_date_iff. split; [unfold last; cbn [year]; unfold MINYEAR, MAXYEAR; lia | exact Hmd]. }
  assert (Hshift : shift_days last n = mk_date y' m' n).
  { unfold shift_days. replace (0 <=? n) with true by lia.
    replace (Z.to_nat n) with (S (Z.to_nat (n - 1))) by lia.
    rewrite iter_succ_r.
    assert (Hnext : next_day last = mk_date y' m' 1).
    { unfold next_day, last. cbn [year month day]. rewrite Z.ltb_irrefl.
      subst y' m'. unfold following_month. destruct (m <? 12); reflexivity. }
    rewrite Hnext, iter_next_day_in_month by lia. f_equal. lia. }
  exists (format_ymd last). split; [apply default_invoice_date_value, Hv |].
  rewrite format_ymd_isoformat by (unfold last; cbn [year]; lia).
  assert (Hy'' : 1000 <= y').
  { subst y'. unfold following_month. destruct (m <? 12); cbn [fst]; lia. }
  rewrite payment_date_value; [| exact Hvl | lia |].
  - rewrite Hshift. f_equal. apply format_ymd_isoformat. cbn [year]. lia.
  - rewrite Hshift. cbn [year]. unfold MINYEAR, MAXYEAR. lia.
Qed.

Lemma default_payment_date_in_following_month_witness :
  valid_date (mk_date 2024 3 10) /\
  exists default_invoice_date,
    _get_default_invoice_date (mk_date 2024 3 10) = OK default_invoice_date /\
    _get_payment_date default_invoice_date 14 = OK "2024-03-14".
Proof.
  split; [reflexivity |].
  destruct (default_payment_date_in_following_month (mk_date 2024 3 10) 14 eq_refl)
    as (did & H1 & H2);
    [vm_compute; discriminate | vm_compute; discriminate
    | vm_compute; split; discriminate |].
  exists did. split; [exact H1 | exact H2].
Defined.

Lemma toordinal_last_of_previous_month (y m : Z) :
  2 <= m <= 12 ->
  toordinal (mk_date y (m - 1) (last_day_of_month y (m - 1))) = toordinal (mk_date y m 1) - 1.
Proof.
  intros Hm.
  assert (Hp : prev_day (mk_date y m 1)
               = mk_date y (m - 1) (last_day_of_month y (m - 1))).
  { unfold prev_day; cbn [year month day]. change (1 <? 1) with false.
    replace (1 <? m) with true by lia. reflexivity. }
  rewrite <- Hp. apply toordinal_prev_day. split; cbn [year month day]; [lia |].
  pose proof (days_in_month_ge_28 y m ltac:(lia)). lia.
Qed.

Lemma toordinal_last_of_december (y : Z) :
  toordinal (mk_date (y - 1) 12 31) = toordinal (mk_date y 1 1) - 1.
Proof.
  change (mk_date (y - 1) 12 31) with (prev_day (mk_date y 1 1)).
  apply toordinal_prev_day. split; cbn [year month day]; [lia |].
  pose proof (days_in_month_ge_28 y 1 ltac:(lia)). lia.
Qed.

(** X11: the default invoice date is never far from today. Before the 15th
    it is the day that lies as many days back as the day of the month of
    today (1 to 14 days); from the 15th on it is the day that lies ahead
    by the days left in the month of today (0 to 16 days). *)
Theorem default_invoice_date_offset (today : date) :
  valid_date today ->
  let offset :=
    if day today <? 15 then - day today
    else last_day_of_month (year today) (month today) - day today in
  _get_default_invoice_date today = OK (format_ymd (shift_days today offset)) /\
  -14 <= offset <= 16.
Proof.
  intros Hv offset.
  set (y := fst (target_month today)). set (m := snd (target_month today)).
  pose proof (target_month_range today Hv) as [_ Hm]. fold m in Hm.
  pose proof Hv as Hv'. apply valid_date_iff in Hv' as [_ [Htm Htd]].
  set (last := mk_date y m (last_day_of_month y m)).
  assert (Hmd : md_valid last).
  { unfold last. split; cbn [year month day]; [exact Hm |].
    rewrite last_day_of_month_eq by exact Hm.
    pose proof (days_in_month_ge_28 y m Hm). lia. }
  pose proof (days_in_month_ge_28 (year today) (month today) Htm) as H28.
  pose proof (days_in_month_le_31 (year today) (month today) Htm) as H31.
  assert (Hord : toordinal last = toordinal today + offset).
  { subst last offset y m. unfold target_month.
    rewrite (last_day_of_month_eq (year today) (month today)) by exact Htm.
    destruct (month today =? 1) eqn:E1; destruct (day today <? 15) eqn:E15;
      cbn [fst snd].
    - change (last_day_of_month (year today - 1) 12) with 31.
      rewrite toordinal_last_of_december. unfold toordinal, _ymd2ord. cbn [year month day].
      replace (month today) with 1 by lia. lia.
    - rewrite last_day_of_month_eq by lia. unfold toordinal, _ymd2ord.
      cbn [year month day]. replace (month today) with 1 by lia. lia.
    - rewrite toordinal_last_of_previous_month by lia.
      unfold toordinal, _ymd2ord. cbn [year month day]. lia.
    - rewrite last_day_of_month_eq by lia. unfold toordinal, _ymd2ord.
      cbn [year month day]. lia. }
  split.
  - rewrite (default_invoice_date_value today Hv). fold y m last.
    do 2 f_equal.
    rewrite <- (_ord2ymd_toordinal last Hmd), Hord.
    apply _ord2ymd_shift. split; assumption.
  - subst offset.
    rewrite (last_day_of_month_eq (year today) (month today)) by exact Htm.
    destruct (day today <? 15) eqn:E15; lia.
Qed.

Lemma default_invoice_date_offset_witness :
  valid_date (mk_date 2024 3 10) /\
  _get_default_invoice_date (mk_date 2024 3 10)
  = OK (format_ymd (shift_days (mk_date 2024 3 10) (- (10)))).
Proof.
  split; [reflexivity |].
  exact (proj1 (default_invoice_date_offset (mk_date 2024 3 10) eq_refl)).
Defined.

(** ** More on the remote operations *)

Lemma get_invoice_run (e : env) (invoice_number : pyval) (log : list request) :
  get_invoice e invoice_number log =
    match get_invoice_request e invoice_number with
    | Raise ex => (Raise ex, log)
    | OK req =>
        (response ← network e log req; json ← resp_json response; Invoice.__init__ json,
         log ++ [req])
    end.
Proof.
  unfold get_invoice, get_invoice_request. run_M. case_results.
Qed.

(** X12: [get_invoice] does not look at the status of the response: it
    issues one GET request and builds the [Invoice] from the body, whatever
    the status. On an error response whose body is a mapping without "id"
    it therefore raises [KeyError], and no HTTP error. *)
Theorem get_invoice_ignores_status (e : env) (headers : list (string * string))
    (invoice_number : pyval) (log : list request) :
  _get_headers e = OK headers ->
  let req :=
    mk_request "GET" (((API_URL +:+ "invoices/") +:+ py_str e invoice_number) +:+ ".json")
      headers None None in
  (forall resp,
     network e log req = OK resp ->
     get_invoice e invoice_number log
     = (json ← resp_json resp; Invoice.__init__ json, log ++ [req]))
  /\ (forall resp m,
        network e log req = OK resp -> resp_json resp = OK (VDict m) ->
        m !! "id" = None ->
        get_invoice e invoice_number log = (Raise (KeyError "id"), log ++ [req])).
Proof.
  intros Hh req.
  assert (Hrun : forall resp, network e log req = OK resp ->
            get_invoice e invoice_number log
            = (json ← resp_json resp; Invoice.__init__ json, log ++ [req])).
  { intros resp Hnet. rewrite get_invoice_run. unfold get_invoice_request.
    rewrite Hh. cbn [mbind result_bind]. fold req. rewrite Hnet. reflexivity. }
  split; [exact Hrun |].
  intros resp m Hnet Hjson Hid. rewrite (Hrun resp Hnet), Hjson.
  cbn [mbind result_bind]. unfold Invoice.__init__, py_getitem. rewrite Hid. reflexivity.
Qed.

Lemma get_invoice_ignores_status_witness :
  _get_headers (demo_env 404) = OK [("X-inFakt-ApiKey", demo_key)] /\
  get_invoice (demo_env 404) (VInt 55) []
  = (OK demo_invoice,
     [] ++ [mk_request "GET" (((API_URL +:+ "invoices/") +:+ "55") +:+ ".json")
              [("X-inFakt-ApiKey", demo_key)] None None]).
Proof.
  assert (Hh : _get_headers (demo_env 404) = OK [("X-inFakt-ApiKey", demo_key)])
    by (vm_compute; reflexivity).
  split; [exact Hh |].
  rewrite (proj1 (get_invoice_ignores_status (demo_env 404) _ (VInt 55) [] Hh)
             (mk_response 404 (OK demo_invoice_json)) eq_refl).
  vm_compute. reflexivity.
Defined.

Lemma get_headers_raises (e : env) (ex : exn) :
  _get_config e = Raise ex -> _get_headers e = Raise ex.
Proof. intros H. unfold _get_headers. rewrite H. reflexivity. Qed.

Lemma default_from_config_raises (e : env) (ex : exn) (value : string) :
  _get_config e = Raise ex -> _get_default_from_config e value = Raise ex.
Proof. intros H. unfold _get_default_from_config. rewrite H. reflexivity. Qed.

Lemma create_invoice_request_raises (e : env) (ex : exn) (gross_price : pyval)
    (kw : invoice_kwargs) :
  _get_config e = Raise ex -> raises (create_invoice_request e gross_price kw).
Proof.
  intros H. unfold create_invoice_request. cbv zeta.
  rewrite (get_headers_raises e ex H).
  repeat match goal with
         | |- raises (Raise _) => eexists; reflexivity
         | |- raises (mbind _ ?x) =>
             destruct x; cbn [mbind result_bind]
         end.
Qed.

(** X13: nothing is sent without a configuration. When the configuration
    does not load, every operation raises before it issues a request: the
    log is unchanged; [get_invoice], [delete_invoice] and [send_invoice]
    raise the exception of the load itself. *)
Theorem no_request_without_config (e : env) (ex : exn) (invoice_number gross_price : pyval)
    (email : option string) (send_copy : bool) (kw : invoice_kwargs)
    (log : list request) :
  _get_config e = Raise ex ->
  get_invoice e invoice_number log = (Raise ex, log) /\
  delete_invoice e invoice_number log = (Raise ex, log) /\
  send_invoice e invoice_number email send_copy log = (Raise ex, log) /\
  (exists ex', create_invoice e gross_price kw log = (Raise ex', log)) /\
  (exists ex', create_and_send_invoice e gross_price email send_copy kw log
               = (Raise ex', log)).
Proof.
  intros H. pose proof (get_headers_raises e ex H) as Hh.
  destruct (create_invoice_request_raises e ex gross_price kw H) as [ex' Hreq].
  split; [| split; [| split; [| split]]].
  - rewrite get_invoice_run. unfold get_invoice_request. rewrite Hh. reflexivity.
  - rewrite delete_invoice_run. unfold delete_invoice_request. rewrite Hh. reflexivity.
  - rewrite send_invoice_run. unfold send_invoice_request.
    destruct email; [| rewrite (default_from_config_raises e ex _ H)];
      cbn [mbind result_bind]; [rewrite Hh |]; reflexivity.
  - exists ex'. rewrite create_invoice_run, Hreq. reflexivity.
  - exists ex'. rewrite create_and_send_invoice_run, create_invoice_run, Hreq. reflexivity.
Qed.

Lemma no_request_without_config_witness :
  _get_config (mk_env (mk_date 2024 3 10) (Raise TomlError)
                 (str_validator (demo_env 201)) (dict_validator (demo_env 201))
                 (repr_other (demo_env 201)) (network (demo_env 201)))
  = Raise TomlError /\
  delete_invoice (mk_env (mk_date 2024 3 10) (Raise TomlError)
                    (str_validator (demo_env 201)) (dict_validator (demo_env 201))
                    (repr_other (demo_env 201)) (network (demo_env 201)))
    (VInt 55) []
  = (Raise TomlError, []).
Proof.
  split; [reflexivity |].
  exact (proj1 (proj2 (no_request_without_config
                         (mk_env (mk_date 2024 3 10) (Raise TomlError)
                            (str_validator (demo_env 201)) (dict_validator (demo_env 201))
                            (repr_other (demo_env 201)) (network (demo_env 201)))
                         TomlError (VInt 55) (VInt 100) None true no_kwargs [] eq_refl))).
Defined.

Lemma get_headers_form (e : env) (headers : list (string * string)) :
  _get_headers e = OK headers ->
  exists config api_key,
    _get_config e = OK config /\
    credentials config !! "api_key" = Some api_key /\
    headers = [("X-inFakt-ApiKey", api_key)].
Proof.
  unfold _get_headers. destruct (_get_config e) as [config |]; [| discriminate].
  cbn [mbind result_bind]. destruct (credentials config !! "api_key") as [k |] eqn:Ek;
    [| discriminate].
  intros H. injection H as <-. exists config, k. repeat split; assumption || reflexivity.
Qed.

(** What a prepared delivery request is made of. *)
Lemma send_invoice_request_ok (e : env) (invoice_number : pyval) (email : option string)
    (send_copy : bool) (req : request) :
  send_invoice_request e invoice_number email send_copy = OK req ->
  exists recipient headers,
    match email with
    | Some a => OK (VStr a)
    | None => _get_default_from_config e "invoice.client_email"
    end = OK recipient /\
    _get_headers e = OK headers /\
    req = mk_request "POST"
            (((API_URL +:+ "invoices/") +:+ py_str e invoice_number)
               +:+ "/deliver_via_email.json")
            headers
            (Some (VDict (<["print_type" := VStr "original"]>
                         (<["locale" := VStr "pe"]>
                         (<["recipient" := recipient]>
                         (<["send_copy" := VBool send_copy]> ∅))))))
            None.
Proof.
  unfold send_invoice_request. intros H.
  destruct (match email with Some _ => _ | None => _ end) as [recipient |];
    [| discriminate H].
  cbn [mbind result_bind] in H.
  destruct (_get_headers e) as [headers |]; [| discriminate H].
  cbn [mbind result_bind] in H. injection H as <-.
  exists recipient, headers. repeat split; reflexivity.
Qed.

Lemma only_requests_none (e : env) (method : string) (n : nat) (log : list request) :
  only_requests e method n log log.
Proof.
  exists []. rewrite app_nil_r. repeat split; [cbn; lia | constructor].
Qed.

Lemma only_requests_one (e : env) (method : string) (n : nat) (log : list request) (req : request) :
  keyed_request e method req -> only_requests e method (S n) log (log ++ [req]).
Proof.
  intros H. exists [req]. repeat split; [cbn; lia | constructor; [exact H | constructor]].
Qed.

Lemma only_requests_trans (e : env) (method : string) (n k : nat) (log log1 log2 : list request) :
  only_requests e method n log log1 -> only_requests e method k log1 log2 ->
  only_requests e method (n + k) log log2.
Proof.
  intros (r1 & -> & Hn & H1) (r2 & -> & Hk & H2). exists (r1 ++ r2).
  rewrite app_assoc. repeat split.
  - rewrite length_app. lia.
  - apply Forall_app. split; assumption.
Qed.

Lemma create_invoice_only_requests (e : env) (gross_price : pyval) (kw : invoice_kwargs)
    (log : list request) :
  only_requests e "POST" 1 log (create_invoice e gross_price kw log).2.
Proof.
  rewrite create_invoice_run.
  destruct (create_invoice_request e gross_price kw) as [req |] eqn:E; cbn [snd].
  - apply only_requests_one.
    destruct (create_invoice_request_ok _ _ _ _ E)
      as (? & ? & ? & ? & ? & ? & headers & _ & _ & _ & Hh & ->).
    split; [reflexivity | exact (get_headers_form e headers Hh)].
  - apply only_requests_none.
Qed.

Lemma send_invoice_only_requests (e : env) (invoice_number : pyval) (email : option string)
    (send_copy : bool) (log : list request) :
  only_requests e "POST" 1 log (send_invoice e invoice_number email send_copy log).2.
Proof.
  rewrite send_invoice_run.
  destruct (send_invoice_request e invoice_number email send_copy) as [req |] eqn:E;
    cbn [snd].
  - apply only_requests_one.
    destruct (send_invoice_request_ok _ _ _ _ _ E) as (? & headers & _ & Hh & ->).
    split; [reflexivity | exact (get_headers_form e headers Hh)].
  - apply only_requests_none.
Qed.

(** X14: the requests of each operation. From any log, [get_invoice] adds
    at most one request, a GET; [delete_invoice] at most one, a DELETE;
    [send_invoice] and [create_invoice] at most one, a POST;
    [create_and_send_invoice] at most two, both POST, so it never deletes.
    The only header of every request is the API key that the configuration
    holds, and the requests already in the log are kept. *)
Theorem operations_requests (e : env) (invoice_number gross_price : pyval)
    (email : option string) (send_copy : bool) (kw : invoice_kwargs)
    (log : list request) :
  only_requests e "GET" 1 log (get_invoice e invoice_number log).2 /\
  only_requests e "DELETE" 1 log (delete_invoice e invoice_number log).2 /\
  only_requests e "POST" 1 log (send_invoice e invoice_number email send_copy log).2 /\
  only_requests e "POST" 1 log (create_invoice e gross_price kw log).2 /\
  only_requests e "POST" 2 log
    (create_and_send_invoice e gross_price email send_copy kw log).2.
Proof.
  split; [| split; [| split; [| split]]].
  - rewrite get_invoice_run. unfold get_invoice_request.
    destruct (_get_headers e) as [headers |] eqn:Hh; cbn [mbind result_bind snd].
    + apply only_requests_one. split; [reflexivity | exact (get_headers_form e headers Hh)].
    + apply only_requests_none.
  - rewrite delete_invoice_run. unfold delete_invoice_request.
    destruct (_get_headers e) as [headers |] eqn:Hh; cbn [mbind result_bind snd].
    + apply only_requests_one. split; [reflexivity | exact (get_headers_form e headers Hh)].
    + apply only_requests_none.
  - apply send_invoice_only_requests.
  - apply create_invoice_only_requests.
  - rewrite create_and_send_invoice_run.
    pose proof (create_invoice_only_requests e gross_price kw log) as Hc.
    destruct (create_invoice e gross_price kw log) as [[invoice | ex] log1]; cbn [snd] in Hc.
    + apply (only_requests_trans e "POST" 1 1 log log1); [exact Hc |].
      apply send_invoice_only_requests.
    + destruct Hc as (reqs & -> & Hn & Hall). exists reqs. cbn [snd].
      repeat split; [lia | exact Hall].
Qed.

(** X15: [create_invoice] computes the default payment date before it looks
    at the [payment_date] argument. With payment days that no [timedelta]
    holds it raises [OverflowError] and sends nothing, also when the
    caller has supplied all three dates. *)
Theorem create_invoice_computes_dates_eagerly (e : env) (config : Config)
    (gross_price : pyval) (kw : invoice_kwargs) (n : Z) (log : list request) :
  _get_config e = OK config ->
  valid_date (today e) ->
  1000 <= fst (target_month (today e)) ->
  kw_payment_days kw = Some n ->
  ~ (-999999999 <= n <= 999999999) ->
  create_invoice e gross_price kw log = (Raise OverflowError, log).
Proof.
  intros Hc Hv Hy Hdays Hn.
  pose proof (target_month_range (today e) Hv) as [Hyr Hm].
  set (y := fst (target_month (today e))) in *.
  set (m := snd (target_month (today e))) in *.
  set (d := mk_date y m (last_day_of_month y m)).
  assert (Hvd : valid_date d).
  { apply valid_date_iff. unfold d, md_valid, MINYEAR, MAXYEAR. cbn [year month day].
    rewrite last_day_of_month_eq by exact Hm.
    pose proof (days_in_month_ge_28 y m Hm). lia. }
  rewrite create_invoice_run. unfold create_invoice_request. cbv zeta.
  destruct (default_from_config_returns e config "invoice.service.name" Hc) as [s Hs].
  destruct (default_from_config_returns e config "invoice.client_id" Hc) as [c Hcl].
  destruct (default_from_config_returns e config "invoice.service.gtu_id" Hc) as [g Hg].
  replace (match kw_service_name kw with
           | Some s => OK (VStr s)
           | None => _get_default_from_config e "invoice.service.name"
           end) with (OK (match kw_service_name kw with Some s' => VStr s' | None => s end))
    by (destruct (kw_service_name kw); [reflexivity | symmetry; exact Hs]).
  replace (match kw_client_id kw with
           | Some c => OK (VInt c)
           | None => _get_default_from_config e "invoice.client_id"
           end) with (OK (match kw_client_id kw with Some c' => VInt c' | None => c end))
    by (destruct (kw_client_id kw); [reflexivity | symmetry; exact Hcl]).
  replace (match kw_gtu_id kw with
           | Some g => OK (VInt g)
           | None => _get_default_from_config e "invoice.service.gtu_id"
           end) with (OK (match kw_gtu_id kw with Some g' => VInt g' | None => g end))
    by (destruct (kw_gtu_id kw); [reflexivity | symmetry; exact Hg]).
  cbn [mbind result_bind].
  rewrite (default_invoice_date_value (today e) Hv). fold y m d.
  cbn [mbind result_bind].
  rewrite format_ymd_isoformat by (unfold d; cbn [year]; lia).
  rewrite Hdays. change (default 14 (Some n)) with n. unfold _get_payment_date.
  rewrite strptime_isoformat by exact Hvd. cbn [mbind result_bind].
  unfold timedelta_days.
  destruct ((-999999999 <=? n) && (n <=? 999999999))%bool eqn:E;
    [exfalso; apply Hn; lia | reflexivity].
Qed.

Lemma create_invoice_computes_dates_eagerly_witness :
  create_invoice (demo_env 201) (VInt 100)
    (mk_kwargs None None (Some "2024-02-29") (Some "2024-02-29") (Some "2024-03-14")
       (Some 1000000000) None) []
  = (Raise OverflowError, []).
Proof.
  apply (create_invoice_computes_dates_eagerly (demo_env 201) demo_config (VInt 100)
           (mk_kwargs None None (Some "2024-02-29") (Some "2024-02-29") (Some "2024-03-14")
              (Some 1000000000) None) 1000000000 []).
  - vm_compute. reflexivity.
  - vm_compute. reflexivity.
  - vm_compute. discriminate.
  - reflexivity.
  - lia.
Defined.

(** ** Defaults of the creation and delivery requests *)

Lemma default_from_config_value (e : env) (config : Config) (value : string) :
  _get_config e = OK config ->
  _get_default_from_config e value = OK (configured config (str_split "." value)).
Proof.
  intros Hc. unfold _get_default_from_config, configured. rewrite Hc.
  cbn [mbind result_bind]. rewrite deep_get_resolve.
  change (str_split "." (("defaults" +:+ ".") +:+ value))
    with ("defaults" :: str_split "." value).
  rewrite Config_dict_defaults. reflexivity.
Qed.

(** X16: the three fields of a creation request that fall back on the
    configuration. The client id, the service name and the GTU id of every
    request that [create_invoice] issues are the arguments given, or the
    defaults configured at [invoice.client_id], [invoice.service.name] and
    [invoice.service.gtu_id]; the client id is sent as a string. The
    payment method is always the transfer and the tax symbol 23. With no
    client id given nor configured the request is still issued, with the
    string "None" as its client id. *)
Theorem create_invoice_field_fallbacks (e : env) (config : Config) (gross_price : pyval)
    (kw : invoice_kwargs) (log : list request) (r : result Invoice.t) (req : request) :
  _get_config e = OK config ->
  create_invoice e gross_price kw log = (r, log ++ [req]) ->
  exists payload inv service,
    req_json req = Some payload /\
    payload_invoice payload = Some inv /\
    payload_service payload = Some service /\
    inv !! "client_id"
      = Some (VStr match kw_client_id kw with
                   | Some c => str_int c
                   | None => py_str e (configured config ["invoice"; "client_id"])
                   end) /\
    service !! "name"
      = Some match kw_service_name kw with
             | Some s => VStr s
             | None => configured config ["invoice"; "service"; "name"]
             end /\
    service !! "gtu_id"
      = Some match kw_gtu_id kw with
             | Some g => VInt g
             | None => configured config ["invoice"; "service"; "gtu_id"]
             end /\
    inv !! "payment_method" = Some (VStr "transfer") /\
    service !! "tax_symbol" = Some (VInt 23) /\
    (kw_client_id kw = None ->
     resolve (VDict (defaults config)) ["invoice"; "client_id"] = None ->
     inv !! "client_id" = Some (VStr "None")).
Proof.
  intros Hc Hrun. apply create_invoice_issued in Hrun as [Hreq _].
  unfold create_invoice_request in Hreq. cbv zeta in Hreq.
  rewrite !(default_from_config_value e config _ Hc) in Hreq.
  change (str_split "." "invoice.service.name") with ["invoice"; "service"; "name"] in Hreq.
  change (str_split "." "invoice.client_id") with ["invoice"; "client_id"] in Hreq.
  change (str_split "." "invoice.service.gtu_id")
    with ["invoice"; "service"; "gtu_id"] in Hreq.
  set (sn := match kw_service_name kw with
             | Some s => VStr s
             | None => configured config ["invoice"; "service"; "name"]
             end).
  set (cid := match kw_client_id kw with
              | Some c => VInt c
              | None => configured config ["invoice"; "client_id"]
              end).
  set (gtu := match kw_gtu_id kw with
              | Some g => VInt g
              | None => configured config ["invoice"; "service"; "gtu_id"]
              end).
  replace (match kw_service_name kw with
           | Some s => OK (VStr s)
           | None => OK (configured config ["invoice"; "service"; "name"])
           end) with (OK sn) in Hreq by (unfold sn; destruct (kw_service_name kw); reflexivity).
  replace (match kw_client_id kw with
           | Some c => OK (VInt c)
           | None => OK (configured config ["invoice"; "client_id"])
           end) with (OK cid) in Hreq by (unfold cid; destruct (kw_client_id kw); reflexivity).
  replace (match kw_gtu_id kw with
           | Some g => OK (VInt g)
           | None => OK (configured config ["invoice"; "service"; "gtu_id"])
           end) with (OK gtu) in Hreq by (unfold gtu; destruct (kw_gtu_id kw); reflexivity).
  cbn [mbind result_bind] in Hreq.
  destruct (_get_default_invoice_date (today e)) as [did |]; [| discriminate Hreq].
  cbn [mbind result_bind] in Hreq.
  destruct (_get_payment_date did _) as [dpd |]; [| discriminate Hreq].
  cbn [mbind result_bind] in Hreq.
  destruct (py_mul_int gross_price 100) as [minor |]; [| discriminate Hreq].
  cbn [mbind result_bind] in Hreq.
  destruct (_get_headers e) as [headers |]; [| discriminate Hreq].
  cbn [mbind result_bind] in Hreq. injection Hreq as <-. cbn [req_json].
  destruct (invoice_payload_fields e cid
              (default did (kw_sale_date kw)) (default did (kw_invoice_date kw))
              (default dpd (kw_payment_date kw)) sn minor gtu)
    as (inv & service & Hinv & Hsvc & Hcid & Hpm & _ & _ & _ & _ & Hname & _ & Htax & Hgtu).
  assert (Hcid' : inv !! "client_id"
                  = Some (VStr match kw_client_id kw with
                               | Some c => str_int c
                               | None => py_str e (configured config ["invoice"; "client_id"])
                               end)).
  { rewrite Hcid. unfold cid. destruct (kw_client_id kw); reflexivity. }
  eexists _, inv, service. split; [reflexivity |].
  repeat (split; [assumption |]).
  intros Hno Hnone. rewrite Hcid', Hno. unfold configured. rewrite Hnone. reflexivity.
Qed.

Lemma create_invoice_field_fallbacks_witness :
  _get_config (bare_env 201) = OK bare_config /\
  exists r req,
    create_invoice (bare_env 201) (VInt 100) no_kwargs [] = (r, [] ++ [req]) /\
    exists payload inv,
      req_json req = Some payload /\ payload_invoice payload = Some inv /\
      inv !! "client_id" = Some (VStr "None").
Proof.
  assert (Hc : _get_config (bare_env 201) = OK bare_config) by (vm_compute; reflexivity).
  split; [exact Hc |].
  destruct (create_invoice (bare_env 201) (VInt 100) no_kwargs []) as [r log'] eqn:Erun.
  assert (Hlog : exists req, log' = [] ++ [req]).
  { apply (f_equal snd) in Erun. cbn [snd] in Erun. rewrite <- Erun.
    vm_compute. eexists. reflexivity. }
  destruct Hlog as [req ->]. exists r, req. split; [reflexivity |].
  destruct (create_invoice_field_fallbacks (bare_env 201) bare_config (VInt 100) no_kwargs
              [] r req Hc Erun)
    as (payload & inv & service & Hj & Hinv & _ & _ & _ & _ & _ & _ & Hnone).
  exists payload, inv. split; [exact Hj |]. split; [exact Hinv |].
  apply Hnone; reflexivity.
Defined.

(** X17: the recipient of a delivery. [send_invoice] mails to the address
    given, or to the default configured at [invoice.client_email]; when
    neither is there it still issues the request, with [None] as the
    recipient. The other three form fields are fixed: the original is
    printed, the locale is "pe", and the copy flag is the argument. *)
Theorem send_invoice_recipient (e : env) (config : Config)
    (headers : list (string * string)) (invoice_number : pyval) (email : option string)
    (send_copy : bool) (log : list request) :
  _get_config e = OK config ->
  _get_headers e = OK headers ->
  let recipient :=
    match email with
    | Some a => VStr a
    | None => configured config ["invoice"; "client_email"]
    end in
  let req :=
    mk_request "POST"
      (((API_URL +:+ "invoices/") +:+ py_str e invoice_number) +:+ "/deliver_via_email.json")
      headers
      (Some (VDict (<["print_type" := VStr "original"]>
                   (<["locale" := VStr "pe"]>
                   (<["recipient" := recipient]>
                   (<["send_copy" := VBool send_copy]> ∅))))))
      None in
  send_invoice e invoice_number email send_copy log
  = (response ← network e log req; OK (ok response), log ++ [req])
  /\ (email = None ->
      resolve (VDict (defaults config)) ["invoice"; "client_email"] = None ->
      recipient = VNone).
Proof.
  intros Hc Hh recipient req. split.
  - rewrite send_invoice_run. unfold send_invoice_request.
    rewrite (default_from_config_value e config _ Hc).
    change (str_split "." "invoice.client_email") with ["invoice"; "client_email"].
    replace (match email with
             | Some a => OK (VStr a)
             | None => OK (configured config ["invoice"; "client_email"])
             end) with (OK recipient) by (unfold recipient; destruct email; reflexivity).
    cbn [mbind result_bind]. rewrite Hh. reflexivity.
  - intros -> Hnone. unfold recipient, configured. rewrite Hnone. reflexivity.
Qed.

Lemma send_invoice_recipient_witness :
  _get_config (bare_env 200) = OK bare_config /\
  _get_headers (bare_env 200) = OK [("X-inFakt-ApiKey", demo_key)] /\
  send_invoice (bare_env 200) (VInt 55) None true []
  = (OK true,
     [] ++ [mk_request "POST"
              (((API_URL +:+ "invoices/") +:+ "55") +:+ "/deliver_via_email.json")
              [("X-inFakt-ApiKey", demo_key)]
              (Some (VDict (<["print_type" := VStr "original"]>
                           (<["locale" := VStr "pe"]>
                           (<["recipient" := VNone]>
                           (<["send_copy" := VBool true]> ∅))))))
              None]).
Proof.
  assert (Hc : _get_config (bare_env 200) = OK bare_config) by (vm_compute; reflexivity).
  assert (Hh : _get_headers (bare_env 200) = OK [("X-inFakt-ApiKey", demo_key)])
    by (vm_compute; reflexivity).
  split; [exact Hc |]. split; [exact Hh |].
  rewrite (proj1 (send_invoice_recipient (bare_env 200) bare_config _ (VInt 55) None true
                    [] Hc Hh)).
  reflexivity.
Defined.

(** X18: when [create_invoice] returns an invoice. It returns one exactly
    when its request could be prepared, the service answered it with a
    status outside 400..599 and a body from which the [Invoice] is built;
    the log has then grown by this one request, and the identifier of the
    invoice is the "id" entry of the body. *)
Theorem create_invoice_success (e : env) (gross_price : pyval) (kw : invoice_kwargs)
    (log log' : list request) (invoice : Invoice.t) :
  create_invoice e gross_price kw log = (OK invoice, log') <->
  exists req resp body,
    create_invoice_request e gross_price kw = OK req /\
    log' = log ++ [req] /\
    network e log req = OK resp /\
    ~ (400 <= status_code resp < 600) /\
    resp_json resp = OK (VDict body) /\
    Invoice.__init__ (VDict body) = OK invoice /\
    body !! "id" = Some (Invoice.id invoice).
Proof.
  rewrite create_invoice_run. split.
  - destruct (create_invoice_request e gross_price kw) as [req |]; [| discriminate].
    intros H. injection H as Hans <-. unfold create_invoice_answer in Hans.
    destruct (network e log req) as [resp |] eqn:Hnet; [| discriminate Hans].
    cbn [mbind result_bind] in Hans.
    pose proof (ok_iff resp) as Hok. unfold ok in Hok.
    destruct (raise_for_status resp) as [[] |]; [| discriminate Hans].
    cbn [mbind result_bind] in Hans.
    destruct (resp_json resp) as [json |] eqn:Hjson; [| discriminate Hans].
    cbn [mbind result_bind] in Hans.
    destruct (invoice_init_ok json invoice Hans) as (m & ? & ? & ? & -> & Hid & _).
    exists req, resp, m.
    split; [reflexivity |]. split; [reflexivity |]. split; [exact Hnet |].
    split; [apply Hok; reflexivity |].
    split; [exact Hjson |]. split; [exact Hans | exact Hid].
  - intros (req & resp & body & -> & -> & Hnet & Hst & Hjson & Hinit & _).
    unfold create_invoice_answer. rewrite Hnet. cbn [mbind result_bind].
    apply ok_iff in Hst. unfold ok in Hst.
    destruct (raise_for_status resp) as [[] |]; [| discriminate Hst].
    cbn [mbind result_bind]. rewrite Hjson. cbn [mbind result_bind]. rewrite Hinit.
    reflexivity.
Qed.
